(** * SmartSpend: client-side state reconciliation and budget evaluation

    A shallow embedding of the state-handling code of the SmartSpend
    expense tracker (App.tsx, constants.ts, types.ts, Dashboard.tsx,
    ChatInterface.tsx) and the properties its specification states
    about it.

    Modelling conventions.
    - A JS [number] holding money is an exact integer [Z]; [a + b] and
      [a - b] are exact.  This is the behaviour of the code on whole
      amounts below 2^53; fractions and larger numbers round in the
      runtime, and a number from 1e21 on prints in exponent form.
    - A JS string is a [string] of bytes; [toLowerCase] and [trim] act on
      the ASCII range.
    - A [Date] object is the record [JSDate] of the observations the code
      makes on it ([getTime], [getMonth], [getFullYear]); an expense
      stores the [Date] that [new Date(e.date)] yields.
    - The React state of [App] is threaded by a state monad: [setState]
      with an updater function is [setState f].  A callback built by
      [useCallback] reads the state value captured by its closure, which
      is passed as the explicit argument [state]; the updater argument
      [prev] is the monad's current state.
    - [await] on an external collaborator (parser, persistence) is a
      sequential step whose answer is an input of the model. *)

From Stdlib Require Import ZArith List String Ascii Bool Lia DecimalString.
From Stdlib Require DecimalPos.
From ExtLib Require Import Structures.Monad Structures.MonadState.
From ExtLib Require Import Data.Monads.StateMonad.
Import ListNotations.
Import MonadNotation.

Open Scope string_scope.
Open Scope list_scope.
Open Scope Z_scope.
Open Scope monad_scope.

(** ** The JavaScript runtime, as far as the code uses it *)

Module JS.

(** [String.prototype.toLowerCase], on ASCII letters: A..Z are folded and
    every other byte is kept.  The runtime also folds the cased letters
    outside ASCII; the upsert is therefore also given with the folding as
    an argument ([App.handleUpdateBudget_with]). *)
Definition lower_ascii (c : ascii) : ascii :=
  let n := nat_of_ascii c in
  if (Nat.leb 65 n && Nat.leb n 90)%bool then ascii_of_nat (n + 32) else c.

Fixpoint toLowerCase (s : string) : string :=
  match s with
  | EmptyString => EmptyString
  | String c s' => String (lower_ascii c) (toLowerCase s')
  end.

(** [String.prototype.trim], on ASCII white space
    (tab, line feed, vertical tab, form feed, carriage return, space).
    The runtime also strips the no-break space and the other Unicode
    spaces, which this model keeps. *)
Definition is_space (c : ascii) : bool :=
  let n := nat_of_ascii c in
  ((Nat.leb 9 n && Nat.leb n 13) || Nat.eqb n 32)%bool.

Fixpoint trimStart (s : string) : string :=
  match s with
  | EmptyString => EmptyString
  | String c s' => if is_space c then trimStart s' else s
  end.

Fixpoint trimEnd (s : string) : string :=
  match s with
  | EmptyString => EmptyString
  | String c s' =>
      match trimEnd s' with
      | EmptyString => if is_space c then EmptyString else String c EmptyString
      | t => String c t
      end
  end.

Definition trim (s : string) : string := trimEnd (trimStart s).

(** Truthiness of a string: only the empty string is falsy. *)
Definition truthy (s : string) : bool :=
  match s with EmptyString => false | _ => true end.

(** [x || 0] on a possibly undefined number: [undefined] and [0] are the
    falsy values an exact number can take. *)
Definition or_zero (x : option Z) : Z :=
  match x with
  | Some n => if n =? 0 then 0 else n
  | None => 0
  end.

(** [Number.prototype.toString] of an integer, in decimal: all the digits,
    as the runtime prints a whole number below 1e21. *)
Definition toString (n : Z) : string := NilZero.string_of_int (Z.to_int n).

Section Arrays.
Context {A : Type}.

(** [Array.prototype.findIndex]: the first index whose element passes,
    [-1] when none does. *)
Fixpoint findIndex_from (p : A -> bool) (l : list A) (i : Z) : Z :=
  match l with
  | [] => -1
  | x :: l' => if p x then i else findIndex_from p l' (i + 1)
  end.

Definition findIndex (p : A -> bool) (l : list A) : Z := findIndex_from p l 0.

(** [Array.prototype.map] with the two-argument callback [(x, i) => ...]. *)
Fixpoint mapi_from {B : Type} (f : A -> Z -> B) (l : list A) (i : Z) : list B :=
  match l with
  | [] => []
  | x :: l' => f x i :: mapi_from f l' (i + 1)
  end.

Definition mapi {B : Type} (f : A -> Z -> B) (l : list A) : list B :=
  mapi_from f l 0.

(** [Array.prototype.reduce] with an initial value. *)
Definition reduce {B : Type} (f : B -> A -> B) (init : B) (l : list A) : B :=
  fold_left f l init.
End Arrays.

(** [Array.from(new Set(items))]: a [Set] keeps the first insertion of
    every value, in insertion order. *)
Fixpoint Set_add_all (seen items : list string) : list string :=
  match items with
  | [] => seen
  | x :: rest =>
      if existsb (String.eqb x) seen then Set_add_all seen rest
      else Set_add_all (seen ++ [x]) rest
  end.

Definition Array_from_Set (items : list string) : list string :=
  Set_add_all [] items.

(** A [Date] object through the observations the code makes. *)
Record JSDate := mkDate {
  getTime : Z;       (* milliseconds since the epoch: the value compared by [<=] *)
  getMonth : Z;      (* local month, 0 to 11 *)
  getFullYear : Z    (* local year *)
}.

(** [new Date(0)]. *)
Definition Date_epoch : JSDate := mkDate 0 0 1970.

(** [new Date(year, monthIndex, 1)] through [getMonth] and [getFullYear]:
    a month index outside 0..11 is carried into the year. *)
Definition Date_of_month_getMonth (year monthIndex : Z) : Z := monthIndex mod 12.
Definition Date_of_month_getFullYear (year monthIndex : Z) : Z := year + monthIndex / 12.

(** The value of a decimal digit, [None] for any other character. *)
Definition digit_value (c : ascii) : option Z :=
  let n := nat_of_ascii c in
  if (Nat.leb 48 n && Nat.leb n 57)%bool then Some (Z.of_nat (n - 48)) else None.

(** The number read from the longest prefix of decimal digits. *)
Fixpoint parse_digits (s : string) (acc : Z) : Z :=
  match s with
  | EmptyString => acc
  | String c s' =>
      match digit_value c with
      | Some d => parse_digits s' (acc * 10 + d)
      | None => acc
      end
  end.

(** [parseInt(s, 10)]: leading white space is skipped, one sign is read,
    then the longest prefix of digits; [None] is [NaN] (no digit).  The
    result is the exact integer, which is what the runtime returns up to
    2^53; beyond, the runtime rounds to the nearest number. *)
Definition parseInt10 (s : string) : option Z :=
  let trimmed := trimStart s in
  let signed :=
    match trimmed with
    | String c rest =>
        if Ascii.eqb c "-" then (-1, rest)
        else if Ascii.eqb c "+" then (1, rest)
        else (1, trimmed)
    | EmptyString => (1, trimmed)
    end in
  match snd signed with
  | EmptyString => None
  | String c _ =>
      match digit_value c with
      | Some _ => Some (fst signed * parse_digits (snd signed) 0)
      | None => None
      end
  end.

(** The global [replace] of the CSV export: every double quote (code 34)
    is written twice. *)
Fixpoint double_quotes (s : string) : string :=
  match s with
  | EmptyString => EmptyString
  | String c s' =>
      if Ascii.eqb c (ascii_of_nat 34)
      then String c (String c (double_quotes s'))
      else String c (double_quotes s')
  end.

(** [Array.prototype.join] on strings. *)
Fixpoint join (sep : string) (l : list string) : string :=
  match l with
  | [] => EmptyString
  | [x] => x
  | x :: rest => x ++ sep ++ join sep rest
  end.

(** A string of ASCII characters only (every byte below 128). *)
Fixpoint is_ascii (s : string) : bool :=
  match s with
  | EmptyString => true
  | String c s' => (Nat.ltb (nat_of_ascii c) 128 && is_ascii s')%bool
  end.

End JS.
Import JS.

(** ** types.ts *)

Definition Category := string.

Record Expense := mkExpense {
  expense_id : string;
  amount : Z;
  category : Category;
  description : string;
  date : JSDate
}.

Record Budget := mkBudget {
  budget_category : Category;
  limit : Z
}.

Inductive Role := user | assistant.

Record Metadata := mkMetadata {
  addedExpense : option Expense;
  budgetLeft : option Z
}.

Record ChatMessage := mkChatMessage {
  id : string;
  role : Role;
  text : string;
  timestamp : JSDate;
  metadata : option Metadata
}.

Record AppState := mkAppState {
  expenses : list Expense;
  budgets : list Budget;
  chatHistory : list ChatMessage
}.

(** ** constants.ts *)

Definition DEFAULT_BUDGETS : list Budget :=
  [ mkBudget "Food" 15000;
    mkBudget "Transport" 5000;
    mkBudget "Bills" 10000;
    mkBudget "Shopping" 8000;
    mkBudget "Health" 5000;
    mkBudget "Entertainment" 5000;
    mkBudget "Other" 5000 ].

(** ** App.tsx: the state store and its handlers *)

(** The outcome of [await]ing a collaborator inside [try]: the promise
    resolves with a value, or rejects and control passes to [catch]. *)
Inductive Awaited (A : Type) :=
| Resolved (a : A)
| Rejected.
Arguments Resolved {A} a.
Arguments Rejected {A}.

(** [Omit<Expense, 'id' | 'date'>] *)
Record ExpenseData := mkExpenseData {
  data_amount : Z;
  data_category : Category;
  data_description : string
}.

(** [{ expense?: Expense; budgetLeft?: number; error?: string }] *)
Record AddResult := mkAddResult {
  result_expense : option Expense;
  result_budgetLeft : option Z;
  result_error : option string
}.

Module App.

Definition Store := state AppState.

(** [setState(prev => f(prev))] *)
Definition setState (f : AppState -> AppState) : Store unit :=
  prev <- get ;; put (f prev).

(** [handleAddExpense].  [saveExpense] is the persistence collaborator
    [apiService.saveExpense] ([null] is [None]), [now] is what
    [new Date()] returns and [state] is the value captured by the
    [useCallback] closure.  The [isSyncing] flag is view state and is
    left out. *)
Definition handleAddExpense
    (saveExpense : ExpenseData -> string -> Awaited (option Expense))
    (now : JSDate) (state : AppState)
    (expenseData : ExpenseData) (specificDate : string) : Store AddResult :=
  match saveExpense expenseData specificDate with
  | Rejected =>
      ret (mkAddResult None None (Some "Something went wrong while adding the expense."))
  | Resolved None =>
      ret (mkAddResult None None
             (Some "I couldn't save that expense. Please check your connection."))
  | Resolved (Some savedExpense) =>
      let currentMonth := getMonth now in
      let currentYear := getFullYear now in
      setState (fun prev =>
        mkAppState (expenses prev ++ [savedExpense]) (budgets prev) (chatHistory prev)) ;;
      let spentBefore :=
        reduce (fun sum e => sum + amount e) 0
          (filter (fun e =>
                     let d := date e in
                     String.eqb (category e) (data_category expenseData)
                     && (getMonth d =? currentMonth)
                     && (getFullYear d =? currentYear))%bool
                  (expenses state)) in
      let budgetLimit :=
        or_zero (option_map limit
                   (find (fun b => String.eqb (budget_category b) (data_category expenseData))
                         (budgets state))) in
      let budgetLeft := budgetLimit - (spentBefore + data_amount expenseData) in
      ret (mkAddResult (Some savedExpense) (Some budgetLeft) None)
  end.

(** [handleAddChatMessage]: the mirror write [apiService.saveChatMessage]
    is awaited inside [try]; its failure is only logged. *)
Definition handleAddChatMessage (message : ChatMessage) : Store unit :=
  setState (fun prev =>
    mkAppState (expenses prev) (budgets prev) (chatHistory prev ++ [message])).

(** The list [newBudgets] built by the updater of [handleUpdateBudget].
    The mirror writes [apiService.saveBudgets] and [apiService.deleteBudget]
    are not awaited and only log a failure; they do not touch the store. *)
Definition newBudgets_upsert (category : string) (limit : Z)
    (prev_budgets : list Budget) : list Budget :=
  let existingIndex :=
    findIndex (fun b => String.eqb (toLowerCase (budget_category b)) (toLowerCase category))
              prev_budgets in
  if existingIndex >? -1 then
    mapi (fun b i => if i =? existingIndex then mkBudget (budget_category b) limit else b)
         prev_budgets
  else
    prev_budgets ++ [mkBudget category limit].

Definition handleUpdateBudget (category : string) (limit : Z) : Store unit :=
  setState (fun prev =>
    mkAppState (expenses prev) (newBudgets_upsert category limit (budgets prev))
               (chatHistory prev)).

(** The list [newBudgets] built by the updater of [handleDeleteBudget]. *)
Definition newBudgets_delete (category : string) (prev_budgets : list Budget) : list Budget :=
  filter (fun b => negb (String.eqb (budget_category b) category)) prev_budgets.

Definition handleDeleteBudget (category : string) : Store unit :=
  setState (fun prev =>
    mkAppState (expenses prev) (newBudgets_delete category (budgets prev))
               (chatHistory prev)).

(** [handleClearData].  [confirmed] is the answer of [window.confirm],
    [cleared] the outcome of [await apiService.clearUserData()], whose
    failure is only logged. *)
Definition handleClearData (confirmed : bool) (cleared : Awaited unit) (now : JSDate)
    : Store unit :=
  if confirmed then
    put (mkAppState []
           DEFAULT_BUDGETS
           [ mkChatMessage "reset" assistant
               "All your data has been wiped. Let's start fresh." now None ])
  else ret tt.

(** [handleUpdateBudget] once more, with [String.prototype.toLowerCase]
    left to the platform: [lower] is whatever folding the runtime applies
    (the full Unicode one in a browser).  [newBudgets_upsert] above is the
    instance at [JS.toLowerCase]. *)
Definition newBudgets_upsert_with (lower : string -> string) (category : string) (limit : Z)
    (prev_budgets : list Budget) : list Budget :=
  let existingIndex :=
    findIndex (fun b => String.eqb (lower (budget_category b)) (lower category))
              prev_budgets in
  if existingIndex >? -1 then
    mapi (fun b i => if i =? existingIndex then mkBudget (budget_category b) limit else b)
         prev_budgets
  else
    prev_budgets ++ [mkBudget category limit].

Definition handleUpdateBudget_with (lower : string -> string) (category : string)
    (limit : Z) : Store unit :=
  setState (fun prev =>
    mkAppState (expenses prev) (newBudgets_upsert_with lower category limit (budgets prev))
               (chatHistory prev)).

End App.

(** ** geminiService.ts *)

(** The object the parser returns.  [parsed_amount] is [Some n] exactly
    when [typeof parsed.amount === 'number']. *)
Record ParsedExpense := mkParsed {
  parsed_amount : option Z;
  parsed_category : string;
  parsed_description : string;
  parsed_date : string
}.

(** [parseExpenseMessage]: [response] is the outcome of the [try] body
    (the model call followed by [JSON.parse]); a throw is caught and
    turned into [null]. *)
Definition parseExpenseMessage (response : Awaited (option ParsedExpense))
    : option ParsedExpense :=
  match response with
  | Resolved result => result
  | Rejected => None
  end.

(** ** ChatInterface.tsx *)

Module ChatInterface.
Import App.

Definition restate_text : string :=
  "I couldn't catch that amount. Try saying 'Spent ₹500 on lunch'.".

(** [textOverride || inputValue]: an absent or empty override is falsy. *)
Definition textToSend (textOverride : option string) (inputValue : string) : string :=
  match textOverride with
  | Some t => if truthy t then t else inputValue
  | None => inputValue
  end.

Section Component.
(** The props of the component. *)
Variable addExpense : ExpenseData -> string -> Store AddResult.
Variable onAddChatMessage : ChatMessage -> Store unit.
(** The answer of the parser collaborator to a message. *)
Variable gemini : string -> Awaited (option ParsedExpense).
(** [Number.prototype.toLocaleString('en-IN')]. *)
Variable toLocaleString_enIN : Z -> string.
(** The clock when the user message and when the reply are built. *)
Variables t_send t_reply : JSDate.

Definition reply (text : string) (metadata : option Metadata) : ChatMessage :=
  mkChatMessage (toString (getTime t_reply + 1)) assistant text t_reply metadata.

Definition success_text (e : Expense) (budgetLeft : Z) : string :=
  "Got it! ₹" ++ toLocaleString_enIN (amount e) ++ " for "
    ++ String (ascii_of_nat 34) (description e) ++ String (ascii_of_nat 34) ""
    ++ " added to " ++ category e ++ ". You have ₹"
    ++ toLocaleString_enIN budgetLeft ++ " left there.".

(** [handleSend].  The view state [inputValue] is an argument;
    [setInputValue] and [setIsTyping] only touch view state.  Nothing in
    the [try] body throws: the parser and [addExpense] catch their own
    failures, so the [catch] branch is not reached. *)
Definition handleSend (textOverride : option string) (inputValue : string)
    : Store unit :=
  let textToSend := textToSend textOverride inputValue in
  if negb (truthy (trim textToSend)) then ret tt
  else
    onAddChatMessage
      (mkChatMessage (toString (getTime t_send)) user textToSend t_send None) ;;
    match parseExpenseMessage (gemini textToSend) with
    | Some parsed =>
        match parsed_amount parsed with
        | Some parsed_amount_number =>
            result <- addExpense
                        (mkExpenseData parsed_amount_number (parsed_category parsed)
                                       (parsed_description parsed))
                        (parsed_date parsed) ;;
            match result_error result with
            | Some err =>
                if truthy err then onAddChatMessage (reply err None)
                else
                  match result_expense result, result_budgetLeft result with
                  | Some e, Some bl =>
                      onAddChatMessage
                        (reply (success_text e bl) (Some (mkMetadata (Some e) (Some bl))))
                  | _, _ => ret tt
                  end
            | None =>
                match result_expense result, result_budgetLeft result with
                | Some e, Some bl =>
                    onAddChatMessage
                      (reply (success_text e bl) (Some (mkMetadata (Some e) (Some bl))))
                | _, _ => ret tt
                end
            end
        | None => onAddChatMessage (reply restate_text None)
        end
    | None => onAddChatMessage (reply restate_text None)
    end.
End Component.

End ChatInterface.

(** ** Dashboard.tsx: the budget aggregator *)

Record CategoryDatum := mkDatum {
  name : string;
  value : Z
}.

Module Dashboard.

Section Component.
(** What [new Date()] returns while the component renders. *)
Variable now : JSDate.
(** The date that [end.setHours(23, 59, 59, 999)] leaves in [end]. *)
Variable setHours_23_59_59_999 : JSDate -> JSDate.

Definition currentMonth : Z := getMonth now.
Definition currentYear : Z := getFullYear now.

(** [filteredExpenses].  [startDate] and [endDate] are the two date
    inputs: [None] is the empty string, [Some d] a date string that
    [new Date] reads as [d]. *)
Definition filteredExpenses (expenses : list Expense)
    (startDate endDate : option JSDate) : list Expense :=
  match startDate, endDate with
  | None, None =>
      filter (fun e =>
                let d := date e in
                (getMonth d =? currentMonth) && (getFullYear d =? currentYear))%bool
             expenses
  | _, _ =>
      filter (fun e =>
                let d := date e in
                let start := match startDate with Some s => s | None => Date_epoch end in
                let end_ := match endDate with Some s => s | None => now end in
                let end_ := setHours_23_59_59_999 end_ in
                (getTime d >=? getTime start) && (getTime d <=? getTime end_))%bool
             expenses
  end.

Definition totalSpent (filtered : list Expense) : Z :=
  reduce (fun sum e => sum + amount e) 0 filtered.

Definition totalBudget (budgets : list Budget) : Z :=
  reduce (fun sum b => sum + limit b) 0 budgets.

Definition currentBalance (budgets : list Budget) (filtered : list Expense) : Z :=
  totalBudget budgets - totalSpent filtered.

(** The figure shown under "Remaining Budget": [Math.max(0, currentBalance)]. *)
Definition remainingShown (budgets : list Budget) (filtered : list Expense) : Z :=
  Z.max 0 (currentBalance budgets filtered).

(** The over-budget styling of that figure: [currentBalance < 0]. *)
Definition remainingIsRed (budgets : list Budget) (filtered : list Expense) : bool :=
  currentBalance budgets filtered <? 0.

(** The over-budget styling of the percentage badge: [totalSpent > totalBudget]. *)
Definition badgeIsRed (budgets : list Budget) (filtered : list Expense) : bool :=
  totalSpent filtered >? totalBudget budgets.

(** [categoryData], from the filtered expenses. *)
Definition categoryData (filtered : list Expense) (budgets : list Budget)
    : list CategoryDatum :=
  let categories :=
    Array_from_Set (map budget_category budgets ++ map category filtered) in
  let data :=
    filter (fun d => value d >? 0)
      (map (fun cat =>
              let spent :=
                reduce (fun sum e => sum + amount e) 0
                  (filter (fun e => String.eqb (category e) cat) filtered) in
              mkDatum cat spent)
           categories) in
  data.

(** The breakdown the dashboard draws from its props and date inputs. *)
Definition categoryBreakdown (expenses : list Expense) (budgets : list Budget)
    (startDate endDate : option JSDate) : list CategoryDatum :=
  categoryData (filteredExpenses expenses startDate endDate) budgets.
End Component.

End Dashboard.

(** ** App.tsx: the chat tab

    [App] renders [<ChatInterface addExpense={handleAddExpense}
    onAddChatMessage={handleAddChatMessage} />].  The collaborators and
    the clock readings of one send are gathered in a record. *)

Record Collaborators := mkCollaborators {
  saveExpense : ExpenseData -> string -> Awaited (option Expense);
  gemini : string -> Awaited (option ParsedExpense);
  toLocaleString_enIN : Z -> string;
  now : JSDate;       (* [new Date()] inside [handleAddExpense] *)
  t_send : JSDate;    (* the clock when the user message is built *)
  t_reply : JSDate    (* the clock when the reply is built *)
}.

(** One send from the chat tab.  [state] is the [App] state of the render
    whose [handleAddExpense] the tab holds. *)
Definition sendMessage (w : Collaborators) (state : AppState)
    (textOverride : option string) (inputValue : string) : App.Store unit :=
  ChatInterface.handleSend
    (App.handleAddExpense (saveExpense w) (now w) state)
    App.handleAddChatMessage
    (gemini w) (toLocaleString_enIN w) (t_send w) (t_reply w)
    textOverride inputValue.

(** ** apiService.ts: the persistence collaborator

    The database client is external: what [supabase.auth.getUser()] and
    each query answer is an input.  A query answers [{ data, error }];
    [null] data is [None]. *)

Record User := mkUser {
  user_id : string;
  full_name : option string;
  email : option string
}.

Record QueryResult (A : Type) := mkQuery {
  q_data : option (list A);
  q_error : bool
}.
Arguments mkQuery {A} q_data q_error.
Arguments q_data {A} q.
Arguments q_error {A} q.

(** A row of the [expenses] table as selected by the code. *)
Record ExpenseRow := mkExpenseRow {
  row_id : Z;
  row_amount : Z;
  row_category : string;
  row_description : string;
  row_created_at : JSDate
}.

(** The object passed to [insert]; [created_at] is set only for a given date. *)
Record InsertData := mkInsertData {
  insert_user_id : string;
  insert_amount : Z;
  insert_category : string;
  insert_description : string;
  insert_created_at : option string
}.

Module apiService.

(** The mapping of a selected row to an [Expense], shared by [fetchState]
    and [saveExpense]. *)
Definition expense_of_row (e : ExpenseRow) : Expense :=
  mkExpense (toString (row_id e)) (row_amount e) (row_category e)
            (row_description e) (row_created_at e).

Definition defaultState (now : JSDate) : AppState :=
  mkAppState []
    DEFAULT_BUDGETS
    [ mkChatMessage "initial" assistant
        "Hi! I'm SmartSpend. I'm ready to track your expenses. Just type or say something like 'Spent 500 on lunch'."
        now None ].

(** [fetchState].  The three queries are keyed by the user's id.  A
    rejected [getUser] rejects the whole call (it is outside [try]); a
    throw inside [try] yields the default state. *)
Definition fetchState (getUser : Awaited (option User)) (now : JSDate)
    (selectExpenses : string -> Awaited (QueryResult ExpenseRow))
    (selectBudgets : string -> Awaited (QueryResult Budget))
    (selectChat : string -> Awaited (QueryResult ChatMessage)) : Awaited AppState :=
  match getUser with
  | Rejected => Rejected
  | Resolved None => Resolved (defaultState now)
  | Resolved (Some authUser) =>
      match selectExpenses (user_id authUser) with
      | Rejected => Resolved (defaultState now)
      | Resolved expensesAnswer =>
          if q_error expensesAnswer then Resolved (defaultState now)
          else
            match selectBudgets (user_id authUser) with
            | Rejected => Resolved (defaultState now)
            | Resolved budgetsAnswer =>
                match selectChat (user_id authUser) with
                | Rejected => Resolved (defaultState now)
                | Resolved chatAnswer =>
                    let dbExpenses :=
                      match q_data expensesAnswer with Some rows => rows | None => [] end in
                    let loadedChat :=
                      match q_data chatAnswer with
                      | Some (m :: rest) => m :: rest
                      | _ => chatHistory (defaultState now)
                      end in
                    match q_data budgetsAnswer with
                    | Some (b :: rest) =>
                        Resolved
                          (mkAppState (map expense_of_row dbExpenses)
                             (map (fun b => mkBudget (budget_category b) (limit b)) (b :: rest))
                             loadedChat)
                    | _ =>
                        Resolved
                          (mkAppState (map expense_of_row dbExpenses) DEFAULT_BUDGETS loadedChat)
                    end
                end
            end
      end
  end.

(** [saveExpense].  [Date_parse] is [new Date(specificDate)], [None] when
    the string is no date: [toISOString] then throws.  [insert] is the
    insert-and-select round trip to the database. *)
Definition saveExpense (getUser : Awaited (option User))
    (Date_parse : string -> option JSDate) (toISOString : JSDate -> string)
    (insert : InsertData -> Awaited (QueryResult ExpenseRow))
    (expense : ExpenseData) (specificDate : string) : Awaited (option Expense) :=
  match getUser with
  | Rejected => Rejected
  | Resolved None => Resolved None
  | Resolved (Some authUser) =>
      let created_at :=
        if truthy specificDate then
          match Date_parse specificDate with
          | Some d => Resolved (Some (toISOString d))
          | None => Rejected
          end
        else Resolved None in
      match created_at with
      | Rejected => Rejected
      | Resolved created =>
          match insert (mkInsertData (user_id authUser) (data_amount expense)
                          (data_category expense) (data_description expense) created) with
          | Rejected => Rejected
          | Resolved answer =>
              if q_error answer then Resolved None
              else
                match q_data answer with
                | Some (saved :: _) => Resolved (Some (expense_of_row saved))
                | _ => Resolved None
                end
          end
      end
  end.

End apiService.

(** ** App.tsx: loading and signing out *)

Module AppSession.
Import App.

(** The state [useState] starts from. *)
Definition initialState : AppState := mkAppState [] DEFAULT_BUDGETS [].

(** [loadAppData]: a rejected [fetchState] is logged and the state kept. *)
Definition loadAppData (fetched : Awaited AppState) : Store unit :=
  match fetched with
  | Resolved data => put data
  | Rejected => ret tt
  end.

(** The [onAuthStateChange] callback.  [session] is the user of the
    session, [None] when there is none; [isRecovering] is the flag the
    effect captured.  [setUser] and [setIsRecovering] touch other state. *)
Definition onAuthStateChange (session : option User) (isRecovering : bool)
    (fetched : Awaited AppState) : Store unit :=
  match session with
  | Some _ => if negb isRecovering then loadAppData fetched else ret tt
  | None => put (mkAppState [] DEFAULT_BUDGETS [])
  end.

(** [user?.user_metadata?.full_name || user?.email || 'User'] *)
Definition userName (authUser : User) : string :=
  match full_name authUser with
  | Some n => if truthy n then n else
      match email authUser with
      | Some m => if truthy m then m else "User"
      | None => "User"
      end
  | None =>
      match email authUser with
      | Some m => if truthy m then m else "User"
      | None => "User"
      end
  end.

End AppSession.

(** ** Settings.tsx *)

(** The two inputs of the "Add Custom Category" form. *)
Record CategoryForm := mkCategoryForm {
  newCategoryName : string;
  newCategoryLimit : string
}.

Module Settings.
Import App.

(** What the limit input of a budget row shows:
    [budget.limit === 0 ? '' : budget.limit]. *)
Definition limitInputValue (budget : Budget) : string :=
  if limit budget =? 0 then "" else toString (limit budget).

Section Component.
Variable onUpdateBudget : string -> Z -> Store unit.
(** [Date.prototype.toLocaleDateString]. *)
Variable toLocaleDateString : JSDate -> string.

Definition handleInputChange (category value : string) : Store unit :=
  match parseInt10 value with
  | Some numValue => onUpdateBudget category numValue
  | None => if String.eqb value "" then onUpdateBudget category 0 else ret tt
  end.

(** [handleAddCategory]; the form state it leaves is the result. *)
Definition handleAddCategory (form : CategoryForm) : Store CategoryForm :=
  if negb (truthy (trim (newCategoryName form))) then ret form
  else
    let limit := or_zero (parseInt10 (newCategoryLimit form)) in
    onUpdateBudget (trim (newCategoryName form)) limit ;;
    ret (mkCategoryForm "" "").

(** A field wrapped in double quotes, its own quotes doubled. *)
Definition csvQuoted (field : string) : string :=
  String (ascii_of_nat 34) (double_quotes field ++ String (ascii_of_nat 34) "").

Definition csvHeaders : list string :=
  ["User"; "Date"; "Category"; "Amount (INR)"; "Description"].

Definition csvRow (userName : string) (e : Expense) : list string :=
  [ csvQuoted userName;
    toLocaleDateString (date e);
    category e;
    toString (amount e);
    csvQuoted (description e) ].

(** [handleExportCSV]: the content of the file offered for download,
    [None] when the alert is shown instead. *)
Definition handleExportCSV (userName : string) (expenses : list Expense) : option string :=
  match expenses with
  | [] => None
  | _ =>
      Some (join (String (ascii_of_nat 10) "")
              (map (join ",") (csvHeaders :: map (csvRow userName) expenses)))
  end.
End Component.

End Settings.

(** ** Dashboard.tsx: the trend series *)

Record TrendDatum := mkTrend {
  trend_name : string;
  trend_spent : Z
}.

Module DashboardTrend.

Section Component.
Variable now : JSDate.
(** [toLocaleString('default', { month: 'short' })] of the first day of a
    month, from its month and year. *)
Variable monthShort : Z -> Z -> string.

(** The entry that the loop body pushes for [i]. *)
Definition trendEntry (expenses : list Expense) (i : Z) : TrendDatum :=
  let d_month := Date_of_month_getMonth (getFullYear now) (getMonth now - i) in
  let d_year := Date_of_month_getFullYear (getFullYear now) (getMonth now - i) in
  let monthName := monthShort d_month d_year in
  let spent :=
    reduce (fun sum e => sum + amount e) 0
      (filter (fun e =>
                 let ed := date e in
                 (getMonth ed =? d_month) && (getFullYear ed =? d_year))%bool
              expenses) in
  mkTrend monthName spent.

(** [trendData]: the loop [for (let i = 4; i >= 0; i--)]. *)
Definition trendData (expenses : list Expense) : list TrendDatum :=
  map (trendEntry expenses) [4; 3; 2; 1; 0].
End Component.

End DashboardTrend.

(** ** A session: the handlers run one after the other

    What the database answers to one [fetchState] is gathered in a record.
    An event is one user action or one callback of the auth collaborator;
    the handlers of the Settings tab call [App.handleUpdateBudget], as
    [App] wires them.  A send is handled with the [handleAddExpense] of
    the current render, whose captured state is the current store. *)

Record Database := mkDatabase {
  db_getUser : Awaited (option User);
  db_now : JSDate;
  db_selectExpenses : string -> Awaited (QueryResult ExpenseRow);
  db_selectBudgets : string -> Awaited (QueryResult Budget);
  db_selectChat : string -> Awaited (QueryResult ChatMessage)
}.

Definition fetchState_from (db : Database) : Awaited AppState :=
  apiService.fetchState (db_getUser db) (db_now db) (db_selectExpenses db)
    (db_selectBudgets db) (db_selectChat db).

Inductive Event :=
| Send (w : Collaborators) (textOverride : option string) (inputValue : string)
| InputChange (category value : string)
| AddCategory (form : CategoryForm)
| DeleteBudget (category : string)
| ClearData (confirmed : bool) (cleared : Awaited unit) (now : JSDate)
| AuthChange (session : option User) (isRecovering : bool) (db : Database)
| Reload (db : Database).

Definition handle (ev : Event) : App.Store unit :=
  match ev with
  | Send w textOverride inputValue =>
      state <- get ;; sendMessage w state textOverride inputValue
  | InputChange category value =>
      Settings.handleInputChange App.handleUpdateBudget category value
  | AddCategory form =>
      Settings.handleAddCategory App.handleUpdateBudget form ;; ret tt
  | DeleteBudget category => App.handleDeleteBudget category
  | ClearData confirmed cleared now => App.handleClearData confirmed cleared now
  | AuthChange session isRecovering db =>
      AppSession.onAuthStateChange session isRecovering (fetchState_from db)
  | Reload db => AppSession.loadAppData (fetchState_from db)
  end.

Fixpoint run (events : list Event) : App.Store unit :=
  match events with
  | [] => ret tt
  | ev :: rest => handle ev ;; run rest
  end.

(** ** The vocabulary of the specification *)

Module Spec.

(** Two category names are the same under case-insensitive comparison. *)
Definition same_category_ci (a b : string) : Prop :=
  toLowerCase a = toLowerCase b.

Definition same_category_cib (category : string) (b : Budget) : bool :=
  String.eqb (toLowerCase (budget_category b)) (toLowerCase category).

(** The data-model invariant: budget categories are pairwise distinct
    under case-insensitive comparison. *)
Definition unique_categories (budgets : list Budget) : Prop :=
  NoDup (map (fun b => toLowerCase (budget_category b)) budgets).

(** [monthlySpend]: the sum of the amounts of exactly the expenses of a
    category dated in the given month and year; every other expense
    contributes nothing. *)
Fixpoint monthlySpend (expenses : list Expense) (cat : string) (month year : Z) : Z :=
  match expenses with
  | [] => 0
  | e :: rest =>
      (if (String.eqb (category e) cat && (getMonth (date e) =? month)
           && (getFullYear (date e) =? year))%bool
       then amount e else 0)
      + monthlySpend rest cat month year
  end.

Definition priorSpendThisMonthInCategory (now : JSDate) (cat : string)
    (stored : list Expense) : Z :=
  monthlySpend stored cat (getMonth now) (getFullYear now).

(** The limit of a category: that of the first budget whose category is
    exactly the given one, zero when there is none. *)
Fixpoint categoryLimit (budgets : list Budget) (cat : string) : Z :=
  match budgets with
  | [] => 0
  | b :: rest =>
      if String.eqb (budget_category b) cat then limit b else categoryLimit rest cat
  end.

(** [remainingBudget(limit, spentSoFar)]. *)
Definition remainingBudget (limit spentSoFar : Z) : Z := limit - spentSoFar.

Fixpoint sum_amounts (expenses : list Expense) : Z :=
  match expenses with
  | [] => 0
  | e :: rest => amount e + sum_amounts rest
  end.

Fixpoint sum_limits (budgets : list Budget) : Z :=
  match budgets with
  | [] => 0
  | b :: rest => limit b + sum_limits rest
  end.

(** The date filter of the breakdown: the calendar month of [now] when
    no bound is given, otherwise from the start (the epoch when absent) to
    the end of the end day (today when absent), both inclusive. *)
Definition in_range (now : JSDate) (endOfDay : JSDate -> JSDate)
    (startDate endDate : option JSDate) (e : Expense) : bool :=
  match startDate, endDate with
  | None, None =>
      ((getMonth (date e) =? getMonth now)
       && (getFullYear (date e) =? getFullYear now))%bool
  | _, _ =>
      let start := match startDate with Some s => s | None => Date_epoch end in
      let stop := endOfDay (match endDate with Some s => s | None => now end) in
      ((getTime start <=? getTime (date e)) && (getTime (date e) <=? getTime stop))%bool
  end.

(** The spend of a category over the expenses that pass a date filter. *)
Fixpoint rangeSpend (inRange : Expense -> bool) (cat : string) (expenses : list Expense) : Z :=
  match expenses with
  | [] => 0
  | e :: rest =>
      (if (inRange e && String.eqb (category e) cat)%bool then amount e else 0)
      + rangeSpend inRange cat rest
  end.

(** Some expense that passes the date filter has the category. *)
Definition category_in_range (inRange : Expense -> bool) (cat : string)
    (expenses : list Expense) : Prop :=
  exists e, In e expenses /\ inRange e = true /\ category e = cat.

(** The breakdown as the specification words it: the entries are those of
    the categories of the budgets and of the filtered expenses whose spend
    is not zero, and with no budgets every category of the filtered
    expenses has its entry. *)
Definition breakdown_as_stated (inRange : Expense -> bool) (expenses : list Expense)
    (budgets : list Budget) (data : list CategoryDatum) : Prop :=
  (forall cat v,
      In (mkDatum cat v) data <->
      (In cat (map budget_category budgets) \/ category_in_range inRange cat expenses)
      /\ v = rangeSpend inRange cat expenses /\ v <> 0)
  /\ (budgets = [] -> expenses <> [] ->
      forall cat, category_in_range inRange cat expenses ->
                  In (mkDatum cat (rangeSpend inRange cat expenses)) data).

(** The months of a [Date] counted from year 0, and the dates whose month
    is one of the twelve. *)
Definition monthIndex (d : JSDate) : Z := 12 * getFullYear d + getMonth d.

Definition valid_month (d : JSDate) : Prop := 0 <= getMonth d < 12.

(** An expense is dated in the month of [now] or in one of the [back]
    months before it. *)
Definition in_last_months (now : JSDate) (back : Z) (e : Expense) : bool :=
  ((monthIndex now - back <=? monthIndex (date e))
   && (monthIndex (date e) <=? monthIndex now))%bool.

Fixpoint sum_trend (l : list TrendDatum) : Z :=
  match l with
  | [] => 0
  | d :: rest => trend_spent d + sum_trend rest
  end.

Fixpoint sum_values (l : list CategoryDatum) : Z :=
  match l with
  | [] => 0
  | d :: rest => value d + sum_values rest
  end.

(** A reader of one quoted CSV field: after the opening quote, a doubled
    quote stands for a quote and a single one closes the field.  It
    returns the field and what follows it. *)
Fixpoint csv_read_body (s : string) : option (string * string) :=
  match s with
  | EmptyString => None
  | String c rest =>
      if Ascii.eqb c (ascii_of_nat 34) then
        match rest with
        | String c' rest' =>
            if Ascii.eqb c' (ascii_of_nat 34) then
              match csv_read_body rest' with
              | Some (field, after) => Some (String c field, after)
              | None => None
              end
            else Some (EmptyString, rest)
        | EmptyString => Some (EmptyString, EmptyString)
        end
      else
        match csv_read_body rest with
        | Some (field, after) => Some (String c field, after)
        | None => None
        end
  end.

Definition csv_read_quoted (s : string) : option (string * string) :=
  match s with
  | String c rest => if Ascii.eqb c (ascii_of_nat 34) then csv_read_body rest else None
  | EmptyString => None
  end.

(** The text after a quoted field does not start with a quote. *)
Definition no_leading_quote (s : string) : Prop :=
  match s with
  | String c _ => c <> ascii_of_nat 34
  | EmptyString => True
  end.

(** The budget rows a database answers with have pairwise distinct
    categories under case-insensitive comparison. *)
Definition budget_rows_unique (db : Database) : Prop :=
  forall uid answer rows,
    db_selectBudgets db uid = Resolved answer ->
    q_data answer = Some rows ->
    unique_categories rows.

(** The databases an event reads satisfy [budget_rows_unique]. *)
Definition reads_unique_rows (ev : Event) : Prop :=
  match ev with
  | AuthChange _ _ db => budget_rows_unique db
  | Reload db => budget_rows_unique db
  | _ => True
  end.

(** Case-insensitive comparison under the folding [lower] of the platform. *)
Definition same_category_under (lower : string -> string) (a b : string) : Prop :=
  lower a = lower b.

Definition unique_categories_under (lower : string -> string) (budgets : list Budget) : Prop :=
  NoDup (map (fun b => lower (budget_category b)) budgets).

(** What every [toLowerCase] does on ASCII text: it folds A..Z and leaves
    the rest. *)
Definition folds_ascii (lower : string -> string) : Prop :=
  forall s, is_ascii s = true -> lower s = toLowerCase s.

(** Budget delete as the specification words it: exactly one entry, one
    whose category is the key, is taken out and the others stay. *)
Definition removes_exactly_one (key : string) (before after : list Budget) : Prop :=
  exists l1 b l2,
    budget_category b = key /\ before = l1 ++ b :: l2 /\ after = l1 ++ l2.

End Spec.
Import Spec.

(** ** A worked scenario

    The example of the specification: the only budget is Food with limit
    15000, and the Food expenses of the current month total 12000. *)

Module Scenario.

(** 2 November 2026 and 3 October 2026. *)
Definition today : JSDate := mkDate 1793620800000 10 2026.
Definition lastMonth : JSDate := mkDate 1791000000000 9 2026.

Definition stored : list Expense :=
  [ mkExpense "1" 7000 "Food" "groceries" today;
    mkExpense "2" 900 "Transport" "metro card" today;
    mkExpense "3" 5000 "Food" "party" today;
    mkExpense "4" 4000 "Food" "dinner" lastMonth;
    mkExpense "5" 300 "food" "snack" today ].

Definition state0 : AppState := mkAppState stored [mkBudget "Food" 15000] [].

(** A persistence collaborator that stores what it is given. *)
Definition saves (d : ExpenseData) (specificDate : string) : Awaited (option Expense) :=
  Resolved (Some (mkExpense "6" (data_amount d) (data_category d) (data_description d) today)).

(** A persistence collaborator whose write fails. *)
Definition fails (d : ExpenseData) (specificDate : string) : Awaited (option Expense) :=
  Resolved None.

Definition world (parser_answer : Awaited (option ParsedExpense))
    (save : ExpenseData -> string -> Awaited (option Expense)) : Collaborators :=
  mkCollaborators save (fun _ => parser_answer) toString today today today.

Definition lunch : ParsedExpense := mkParsed (Some 2000) "Food" "lunch" "2026-11-02".
Definition samosa : ParsedExpense := mkParsed (Some 200) "food" "samosa" "2026-11-02".

(** A signed-in user and the rows the database holds for her. *)
Definition alice : User := mkUser "u-1" (Some "Alice") (Some "alice@example.com").

Definition database : Database :=
  mkDatabase (Resolved (Some alice)) today
    (fun _ => Resolved (mkQuery (Some [ mkExpenseRow 1 7000 "Food" "groceries" today;
                                        mkExpenseRow 2 900 "Transport" "metro card" today ])
                                false))
    (fun _ => Resolved (mkQuery (Some [mkBudget "Food" 15000; mkBudget "Gym" 1200]) false))
    (fun _ => Resolved (mkQuery (Some []) false)).

(** A visit: load, add a category, edit a limit, log an expense, delete a
    category, wipe, sign out. *)
Definition visit : list Event :=
  [ Reload database;
    AddCategory (mkCategoryForm " gym " "900");
    AddCategory (mkCategoryForm "Books" "");
    InputChange "Food" "12000";
    Send (world (Resolved (Some lunch)) saves) None "Spent 2000 on lunch";
    DeleteBudget "Gym";
    ClearData true Rejected today;
    AuthChange None false database ].

(** The store after a first spoken expense of 2000 on Food was added,
    while the handler of the speech callback still holds [state0]. *)
Definition state1 : AppState :=
  mkAppState (stored ++ [mkExpense "6" 2000 "Food" "lunch" today])
             [mkBudget "Food" 15000] [].

End Scenario.

(** ** Facts about the runtime functions *)

Section ArrayFacts.
Context {A : Type}.
Variable p : A -> bool.

Lemma findIndex_from_none (l : list A) (i : Z) :
  (forall x, In x l -> p x = false) -> findIndex_from p l i = -1.
Proof.
  revert i; induction l as [|a l IH]; intros i Hl; simpl; [reflexivity|].
  rewrite (Hl a (or_introl eq_refl)). apply IH. intros x Hx. apply Hl. now right.
Qed.

Lemma findIndex_from_first (l1 l2 : list A) (b : A) (i : Z) :
  (forall x, In x l1 -> p x = false) -> p b = true ->
  findIndex_from p (l1 ++ b :: l2) i = i + Z.of_nat (List.length l1).
Proof.
  revert i; induction l1 as [|a l1 IH]; intros i Hl Hb; simpl.
  - rewrite Hb. lia.
  - rewrite (Hl a (or_introl eq_refl)). rewrite IH; [lia | | exact Hb].
    intros x Hx. apply Hl. now right.
Qed.

(** A list either has no element passing [p] or splits at the first one. *)
Lemma first_split (l : list A) :
  (forall x, In x l -> p x = false)
  \/ exists l1 b l2, l = l1 ++ b :: l2 /\ (forall x, In x l1 -> p x = false) /\ p b = true.
Proof.
  induction l as [|a l IH].
  - left. intros x [].
  - destruct (p a) eqn:Ha.
    + right. exists [], a, l. repeat split; auto. intros x [].
    + destruct IH as [IH | (l1 & b & l2 & -> & Hl1 & Hb)].
      * left. intros x [<- | Hx]; auto.
      * right. exists (a :: l1), b, l2. repeat split; auto.
        intros x [<- | Hx]; auto.
Qed.

Lemma mapi_from_replace (g : A -> A) (l1 l2 : list A) (b : A) (i : Z) :
  mapi_from (fun x j => if j =? i + Z.of_nat (List.length l1) then g x else x) (l1 ++ b :: l2) i
  = l1 ++ g b :: l2.
Proof.
  assert (Hfar : forall l k, i + Z.of_nat (List.length l1) < k ->
            mapi_from (fun x j => if j =? i + Z.of_nat (List.length l1) then g x else x) l k = l).
  { induction l as [|a l IH]; intros k Hk; simpl; [reflexivity|].
    destruct (Z.eqb_spec k (i + Z.of_nat (List.length l1))); [lia|].
    rewrite IH by lia. reflexivity. }
  revert i Hfar; induction l1 as [|a l1 IH]; intros i Hfar; simpl.
  - rewrite Z.add_0_r in *. rewrite Z.eqb_refl. rewrite Hfar by lia. reflexivity.
  - destruct (Z.eqb_spec i (i + Z.pos (Pos.of_succ_nat (List.length l1)))); [lia|].
    f_equal.
    replace (i + Z.pos (Pos.of_succ_nat (List.length l1)))
      with ((i + 1) + Z.of_nat (List.length l1)) by lia.
    apply IH. intros l k Hk.
    specialize (Hfar l k).
    replace (i + Z.of_nat (List.length (a :: l1)))
      with ((i + 1) + Z.of_nat (List.length l1)) in Hfar by (simpl List.length; lia).
    apply Hfar. lia.
Qed.

Lemma filter_none (l : list A) :
  (forall x, In x l -> p x = true) -> filter p l = l.
Proof.
  induction l as [|a l IH]; intros Hl; simpl; [reflexivity|].
  rewrite (Hl a (or_introl eq_refl)). f_equal. apply IH. intros x Hx. apply Hl. now right.
Qed.
End ArrayFacts.

Lemma or_zero_id (x : Z) : or_zero (Some x) = x.
Proof. unfold or_zero. destruct (Z.eqb_spec x 0); congruence. Qed.

(** ** Budget upsert and delete *)

Section BudgetLists.
Import App.
Variable category : string.

Lemma matches_true (b : Budget) :
  same_category_cib category b = true <-> same_category_ci (budget_category b) category.
Proof. unfold same_category_cib, same_category_ci. apply String.eqb_eq. Qed.

Lemma matches_false (b : Budget) :
  same_category_cib category b = false <-> ~ same_category_ci (budget_category b) category.
Proof. unfold same_category_cib, same_category_ci. apply String.eqb_neq. Qed.

Lemma upsert_absent (limit : Z) (l : list Budget) :
  (forall b, In b l -> ~ same_category_ci (budget_category b) category) ->
  newBudgets_upsert category limit l = l ++ [mkBudget category limit].
Proof.
  intros Hl. unfold newBudgets_upsert, findIndex.
  rewrite findIndex_from_none; [reflexivity|].
  intros b Hb. apply matches_false. auto.
Qed.

Lemma upsert_present (limit : Z) (l1 l2 : list Budget) (b : Budget) :
  (forall x, In x l1 -> ~ same_category_ci (budget_category x) category) ->
  same_category_ci (budget_category b) category ->
  newBudgets_upsert category limit (l1 ++ b :: l2)
  = l1 ++ mkBudget (budget_category b) limit :: l2.
Proof.
  intros Hl1 Hb. unfold newBudgets_upsert, findIndex.
  rewrite (findIndex_from_first _ l1 l2 b 0).
  - destruct (Z.gtb_spec (0 + Z.of_nat (List.length l1)) (-1)) as [_|]; [|lia].
    unfold mapi.
    apply (mapi_from_replace (fun x => mkBudget (budget_category x) limit) l1 l2 b 0).
  - intros x Hx. apply matches_false. auto.
  - apply matches_true. exact Hb.
Qed.

Lemma budgets_first_match (l : list Budget) :
  (forall b, In b l -> ~ same_category_ci (budget_category b) category)
  \/ exists l1 b l2, l = l1 ++ b :: l2
       /\ (forall x, In x l1 -> ~ same_category_ci (budget_category x) category)
       /\ same_category_ci (budget_category b) category.
Proof.
  destruct (first_split (same_category_cib category) l) as [Hn | (l1 & b & l2 & -> & Hl1 & Hb)].
  - left. intros b Hb. apply matches_false. auto.
  - right. exists l1, b, l2. repeat split.
    + intros x Hx. apply matches_false. auto.
    + apply matches_true. exact Hb.
Qed.

Lemma delete_keeps (l : list Budget) :
  (forall b, In b l -> budget_category b <> category) ->
  newBudgets_delete category l = l.
Proof.
  intros Hl. unfold newBudgets_delete. apply filter_none.
  intros b Hb. apply negb_true_iff. apply String.eqb_neq. auto.
Qed.

Lemma delete_app (l1 l2 : list Budget) :
  newBudgets_delete category (l1 ++ l2)
  = newBudgets_delete category l1 ++ newBudgets_delete category l2.
Proof. unfold newBudgets_delete. apply filter_app. Qed.

Lemma delete_unique (l : list Budget) :
  unique_categories l -> unique_categories (newBudgets_delete category l).
Proof.
  unfold unique_categories, newBudgets_delete.
  induction l as [|a l IH]; simpl; intros Hnd; [exact Hnd|].
  inversion Hnd as [|k ks Hnotin Hrest]; subst.
  destruct (negb (String.eqb (budget_category a) category)); simpl; auto.
  constructor; auto.
  intros Hin. apply Hnotin.
  apply in_map_iff in Hin. destruct Hin as (x & Hx & Hin).
  apply filter_In in Hin. apply in_map_iff. exists x. tauto.
Qed.

Lemma upsert_unique (limit : Z) (l : list Budget) :
  unique_categories l -> unique_categories (newBudgets_upsert category limit l).
Proof.
  intros Hnd.
  destruct (budgets_first_match l) as [Hn | (l1 & b & l2 & -> & Hl1 & Hb)].
  - rewrite upsert_absent by exact Hn.
    unfold unique_categories in *. rewrite map_app. simpl.
    apply NoDup_app; auto.
    + repeat constructor. intros [].
    + intros k Hk [<- | []].
      apply in_map_iff in Hk. destruct Hk as (x & Hx & Hin).
      apply (Hn x Hin). exact Hx.
  - rewrite upsert_present by assumption.
    unfold unique_categories in *.
    rewrite map_app in *. simpl in *. exact Hnd.
Qed.
End BudgetLists.

(** Decides [unique_categories] on a list of literal names. *)
Ltac distinct_names :=
  unfold unique_categories; simpl;
  repeat (constructor; [simpl; intuition discriminate|]);
  constructor.

Lemma default_budgets_unique : unique_categories DEFAULT_BUDGETS.
Proof. distinct_names. Qed.

Section Folding.
Variable lower : string -> string.
Variable category : string.

Lemma upsert_with_absent (limit : Z) (l : list Budget) :
  (forall b, In b l -> ~ same_category_under lower (budget_category b) category) ->
  App.newBudgets_upsert_with lower category limit l = l ++ [mkBudget category limit].
Proof.
  intros Hl. unfold App.newBudgets_upsert_with, findIndex.
  rewrite findIndex_from_none; [reflexivity|].
  intros b Hb. apply String.eqb_neq. exact (Hl b Hb).
Qed.

Lemma upsert_with_present (limit : Z) (l1 l2 : list Budget) (b : Budget) :
  (forall x, In x l1 -> ~ same_category_under lower (budget_category x) category) ->
  same_category_under lower (budget_category b) category ->
  App.newBudgets_upsert_with lower category limit (l1 ++ b :: l2)
  = l1 ++ mkBudget (budget_category b) limit :: l2.
Proof.
  intros Hl1 Hb. unfold App.newBudgets_upsert_with, findIndex.
  rewrite (findIndex_from_first _ l1 l2 b 0).
  - destruct (Z.gtb_spec (0 + Z.of_nat (List.length l1)) (-1)) as [_|]; [|lia].
    unfold mapi.
    apply (mapi_from_replace (fun x => mkBudget (budget_category x) limit) l1 l2 b 0).
  - intros x Hx. apply String.eqb_neq. exact (Hl1 x Hx).
  - apply String.eqb_eq. exact Hb.
Qed.

Lemma first_match_under (l : list Budget) :
  (forall b, In b l -> ~ same_category_under lower (budget_category b) category)
  \/ exists l1 b l2, l = l1 ++ b :: l2
         /\ (forall x, In x l1 -> ~ same_category_under lower (budget_category x) category)
         /\ same_category_under lower (budget_category b) category.
Proof.
  destruct (first_split
              (fun b => String.eqb (lower (budget_category b)) (lower category)) l)
    as [Hn | (l1 & b & l2 & -> & Hl1 & Hb)].
  - left. intros b Hb. apply String.eqb_neq. auto.
  - right. exists l1, b, l2. repeat split.
    + intros x Hx. apply String.eqb_neq. auto.
    + apply String.eqb_eq. exact Hb.
Qed.
End Folding.

Lemma unique_split_others_under (lower : string -> string) (l1 l2 : list Budget)
    (b : Budget) :
  unique_categories_under lower (l1 ++ b :: l2) ->
  forall x, In x (l1 ++ l2) ->
            ~ same_category_under lower (budget_category x) (budget_category b).
Proof.
  unfold unique_categories_under, same_category_under. rewrite map_app. simpl.
  intros Hnd x Hx Heq.
  apply NoDup_remove_2 in Hnd. apply Hnd.
  rewrite <- map_app. rewrite <- Heq.
  apply (in_map (fun b0 => lower (budget_category b0))). exact Hx.
Qed.

(** C6.  Budget upsert matches an existing entry by case-insensitive
    comparison of category names, whatever folding [toLowerCase] applies
    beyond the ASCII letters.  When some entry matches, the new list is
    the old one with the limit of the first matching entry replaced: its
    stored category name and position are kept and the length does not
    change; an entry whose ASCII name differs from the given ASCII name
    only in letter case is such a match.  When no entry matches, the new
    list is the old one with [{category, limit}] appended at the end.
    Expenses and chat history are not touched. *)
Theorem handleUpdateBudget_upsert :
  forall (lower : string -> string) (category : string) (limit : Z) (s : AppState),
    folds_ascii lower ->
    let s' := execState (App.handleUpdateBudget_with lower category limit) s in
    expenses s' = expenses s /\ chatHistory s' = chatHistory s
    /\ ((exists b, In b (budgets s)
                   /\ same_category_under lower (budget_category b) category) ->
        exists l1 b l2,
          budgets s = l1 ++ b :: l2
          /\ (forall x, In x l1 -> ~ same_category_under lower (budget_category x) category)
          /\ same_category_under lower (budget_category b) category
          /\ budgets s' = l1 ++ mkBudget (budget_category b) limit :: l2
          /\ List.length (budgets s') = List.length (budgets s))
    /\ ((forall b, In b (budgets s)
                   -> ~ same_category_under lower (budget_category b) category) ->
        budgets s' = budgets s ++ [mkBudget category limit])
    /\ (forall l1 b l2,
           budgets s = l1 ++ b :: l2 ->
           (forall x, In x l1 -> ~ same_category_under lower (budget_category x) category) ->
           is_ascii (budget_category b) = true ->
           is_ascii category = true ->
           toLowerCase (budget_category b) = toLowerCase category ->
           budgets s' = l1 ++ mkBudget (budget_category b) limit :: l2).
Proof.
  intros lower category limit s Hascii s'.
  assert (Hb : budgets s'
               = App.newBudgets_upsert_with lower category limit (budgets s)) by reflexivity.
  split; [reflexivity|]. split; [reflexivity|]. split; [|split].
  - intros (b0 & Hin & Hsame).
    destruct (first_match_under lower category (budgets s))
      as [Hn | (l1 & b & l2 & Heq & Hl1 & Hbm)].
    + exfalso. exact (Hn b0 Hin Hsame).
    + exists l1, b, l2. rewrite Hb, Heq.
      rewrite upsert_with_present by assumption.
      repeat split; auto.
      rewrite !length_app. reflexivity.
  - intros Hn. rewrite Hb. apply upsert_with_absent. exact Hn.
  - intros l1 b l2 Heq Hl1 Hab Hac Hfold.
    rewrite Hb, Heq. apply upsert_with_present; [exact Hl1|].
    unfold same_category_under. rewrite (Hascii _ Hab), (Hascii _ Hac). exact Hfold.
Qed.

(** C6 on the default budgets: FOOD finds the entry Food, which keeps its
    name and place and gets the limit 1. *)
Lemma handleUpdateBudget_upsert_witness :
  budgets (execState (App.handleUpdateBudget_with toLowerCase "FOOD" 1)
                     (mkAppState [] DEFAULT_BUDGETS []))
  = [ mkBudget "Food" 1; mkBudget "Transport" 5000; mkBudget "Bills" 10000;
      mkBudget "Shopping" 8000; mkBudget "Health" 5000; mkBudget "Entertainment" 5000;
      mkBudget "Other" 5000 ].
Proof.
  apply (proj2 (proj2 (proj2 (proj2
           (handleUpdateBudget_upsert toLowerCase "FOOD" 1
              (mkAppState [] DEFAULT_BUDGETS []) (fun s _ => eq_refl)))))
           [] (mkBudget "Food" 15000)
           [ mkBudget "Transport" 5000; mkBudget "Bills" 10000; mkBudget "Shopping" 8000;
             mkBudget "Health" 5000; mkBudget "Entertainment" 5000; mkBudget "Other" 5000 ]);
    try reflexivity.
  intros x [].
Defined.

Lemma unique_split_others (l1 l2 : list Budget) (b : Budget) :
  unique_categories (l1 ++ b :: l2) ->
  forall x, In x (l1 ++ l2) -> ~ same_category_ci (budget_category x) (budget_category b).
Proof.
  unfold unique_categories, same_category_ci. rewrite map_app. simpl.
  intros Hnd x Hx Heq.
  apply NoDup_remove_2 in Hnd. apply Hnd.
  rewrite <- map_app. rewrite <- Heq.
  apply (in_map (fun b0 => toLowerCase (budget_category b0))). exact Hx.
Qed.

(** C7, for budgets that satisfy the data-model invariant.  In a state
    whose budget categories are pairwise distinct under case-insensitive
    comparison (whatever folding [toLowerCase] applies) and which holds an
    entry [b] whose category is exactly [key], budget delete removes that
    one entry and keeps every other entry, with its category, limit and
    position.  Re-adding [key] afterwards appends the fresh entry
    [{key, limit'}] at the end: nothing of the deleted entry's limit
    remains. *)
Theorem handleDeleteBudget_removes_exactly_one :
  forall (lower : string -> string) (key : string) (limit' : Z) (b : Budget) (s : AppState),
    unique_categories_under lower (budgets s) ->
    In b (budgets s) ->
    budget_category b = key ->
    let s1 := execState (App.handleDeleteBudget key) s in
    let s2 := execState (App.handleUpdateBudget_with lower key limit') s1 in
    expenses s1 = expenses s /\ chatHistory s1 = chatHistory s
    /\ removes_exactly_one key (budgets s) (budgets s1)
    /\ exists l1 l2,
         budgets s = l1 ++ b :: l2
         /\ budgets s1 = l1 ++ l2
         /\ (forall x, In x (budgets s1) -> budget_category x <> key)
         /\ budgets s2 = (l1 ++ l2) ++ [mkBudget key limit'].
Proof.
  intros lower key limit' b s Huniq Hin Hkey s1 s2.
  split; [reflexivity|]. split; [reflexivity|].
  destruct (in_split b (budgets s) Hin) as (l1 & l2 & Heq).
  rewrite Heq in Huniq.
  pose proof (unique_split_others_under lower l1 l2 b Huniq) as Hothers.
  rewrite Hkey in Hothers.
  assert (Hne : forall x, In x (l1 ++ l2) -> budget_category x <> key).
  { intros x Hx Hxk. apply (Hothers x Hx). unfold same_category_under. now rewrite Hxk. }
  assert (Hdel : budgets s1 = l1 ++ l2).
  { change (budgets s1) with (App.newBudgets_delete key (budgets s)).
    rewrite Heq, delete_app.
    rewrite (delete_keeps key l1) by (intros x Hx; apply Hne, in_or_app; now left).
    f_equal. unfold App.newBudgets_delete at 1. simpl.
    rewrite Hkey, String.eqb_refl. simpl.
    apply delete_keeps. intros x Hx. apply Hne, in_or_app. now right. }
  split.
  - exists l1, b, l2. repeat split; assumption.
  - exists l1, l2. repeat split; auto.
    + rewrite Hdel. exact Hne.
    + change (budgets s2)
        with (App.newBudgets_upsert_with lower key limit' (budgets s1)).
      rewrite Hdel. apply upsert_with_absent. exact Hothers.
Qed.

(** C7, at a concrete state: deleting "Bills" from the default budgets and
    adding it again with limit 1. *)
Lemma handleDeleteBudget_removes_exactly_one_witness :
  let s := mkAppState [] DEFAULT_BUDGETS [] in
  let s1 := execState (App.handleDeleteBudget "Bills") s in
  let s2 := execState (App.handleUpdateBudget_with toLowerCase "Bills" 1) s1 in
  expenses s1 = expenses s /\ chatHistory s1 = chatHistory s
  /\ removes_exactly_one "Bills" (budgets s) (budgets s1)
  /\ exists l1 l2,
       budgets s = l1 ++ mkBudget "Bills" 10000 :: l2
       /\ budgets s1 = l1 ++ l2
       /\ (forall x, In x (budgets s1) -> budget_category x <> "Bills")
       /\ budgets s2 = (l1 ++ l2) ++ [mkBudget "Bills" 1].
Proof.
  apply (handleDeleteBudget_removes_exactly_one toLowerCase "Bills" 1
           (mkBudget "Bills" 10000) (mkAppState [] DEFAULT_BUDGETS [])).
  - unfold unique_categories_under; simpl;
      repeat (constructor; [simpl; intuition discriminate|]); constructor.
  - simpl. tauto.
  - reflexivity.
Defined.

(** C7 as the specification words it, for every budgets list, does not
    hold.  On [Food 1; Gym 2; Food 3] the delete of Food takes out two
    entries, not one.  On [Food 1; food 2] the delete of Food leaves
    [food 2], and adding Food again with limit 9 changes that entry to
    [food 9] instead of appending a fresh one. *)
Lemma handleDeleteBudget_duplicates_counterexample :
  ~ removes_exactly_one "Food"
      [mkBudget "Food" 1; mkBudget "Gym" 2; mkBudget "Food" 3]
      (budgets (execState (App.handleDeleteBudget "Food")
                  (mkAppState [] [mkBudget "Food" 1; mkBudget "Gym" 2; mkBudget "Food" 3] [])))
  /\ budgets (execState (App.handleUpdateBudget "Food" 9)
                (execState (App.handleDeleteBudget "Food")
                   (mkAppState [] [mkBudget "Food" 1; mkBudget "food" 2] [])))
     <> budgets (execState (App.handleDeleteBudget "Food")
                   (mkAppState [] [mkBudget "Food" 1; mkBudget "food" 2] []))
        ++ [mkBudget "Food" 9].
Proof.
  split.
  - intros (l1 & b & l2 & _ & Hbefore & Hafter).
    apply (f_equal (@List.length Budget)) in Hbefore.
    apply (f_equal (@List.length Budget)) in Hafter.
    rewrite length_app in Hbefore, Hafter. simpl in Hbefore, Hafter. lia.
  - simpl. discriminate.
Qed.

(** C9.  From a state whose budget categories are pairwise distinct under
    case-insensitive comparison, upsert, delete by exact key and the full
    wipe each leave a budget list with the same property. *)
Theorem budget_operations_keep_categories_unique :
  forall (s : AppState),
    unique_categories (budgets s) ->
    (forall category limit,
        unique_categories (budgets (execState (App.handleUpdateBudget category limit) s)))
    /\ (forall category,
        unique_categories (budgets (execState (App.handleDeleteBudget category) s)))
    /\ (forall cleared now,
        unique_categories (budgets (execState (App.handleClearData true cleared now) s)))
    /\ (forall cleared now,
        unique_categories (budgets (execState (App.handleClearData false cleared now) s))).
Proof.
  intros s Huniq. repeat split.
  - intros category limit.
    change (unique_categories (App.newBudgets_upsert category limit (budgets s))).
    apply upsert_unique. exact Huniq.
  - intros category.
    change (unique_categories (App.newBudgets_delete category (budgets s))).
    apply delete_unique. exact Huniq.
  - intros cleared now. exact default_budgets_unique.
  - intros cleared now. exact Huniq.
Qed.

(** C9, at the state a session starts from. *)
Lemma budget_operations_keep_categories_unique_witness :
  (forall category limit,
      unique_categories
        (budgets (execState (App.handleUpdateBudget category limit)
                            (mkAppState [] DEFAULT_BUDGETS []))))
  /\ (forall category,
      unique_categories
        (budgets (execState (App.handleDeleteBudget category)
                            (mkAppState [] DEFAULT_BUDGETS []))))
  /\ (forall cleared now,
      unique_categories
        (budgets (execState (App.handleClearData true cleared now)
                            (mkAppState [] DEFAULT_BUDGETS []))))
  /\ (forall cleared now,
      unique_categories
        (budgets (execState (App.handleClearData false cleared now)
                            (mkAppState [] DEFAULT_BUDGETS [])))).
Proof.
  apply (budget_operations_keep_categories_unique (mkAppState [] DEFAULT_BUDGETS [])).
  distinct_names.
Defined.

(** ** The full wipe *)

(** C4.  Once the user has confirmed, the full wipe turns any state into
    the state with no expenses, the default budget set (Food 15000,
    Transport 5000, Bills 10000, Shopping 8000, Health 5000,
    Entertainment 5000, Other 5000) and a chat history that holds exactly
    one message, the assistant's confirmation; whether the remote wipe
    succeeded does not matter. *)
Theorem handleClearData_full_wipe :
  forall (s : AppState) (cleared : Awaited unit) (now : JSDate),
    let s' := execState (App.handleClearData true cleared now) s in
    expenses s' = []
    /\ budgets s' = [ mkBudget "Food" 15000; mkBudget "Transport" 5000;
                      mkBudget "Bills" 10000; mkBudget "Shopping" 8000;
                      mkBudget "Health" 5000; mkBudget "Entertainment" 5000;
                      mkBudget "Other" 5000 ]
    /\ budgets s' = DEFAULT_BUDGETS
    /\ exists m,
         chatHistory s' = [m]
         /\ role m = assistant
         /\ id m = "reset"
         /\ text m = "All your data has been wiped. Let's start fresh."
         /\ timestamp m = now
         /\ metadata m = None.
Proof.
  intros s cleared now s'. subst s'. simpl.
  repeat split.
  eexists. repeat split.
Qed.

(** When the user declines the confirmation nothing changes. *)
Lemma handleClearData_declined (s : AppState) (cleared : Awaited unit) (now : JSDate) :
  execState (App.handleClearData false cleared now) s = s.
Proof. reflexivity. Qed.

(** ** The budget aggregator *)

Lemma reduce_amounts (l : list Expense) (a : Z) :
  reduce (fun sum e => sum + amount e) a l = a + sum_amounts l.
Proof.
  unfold reduce. revert a. induction l as [|e l IH]; intros a; simpl.
  - lia.
  - rewrite IH. lia.
Qed.

Lemma reduce_limits (l : list Budget) (a : Z) :
  reduce (fun sum b => sum + limit b) a l = a + sum_limits l.
Proof.
  unfold reduce. revert a. induction l as [|e l IH]; intros a; simpl.
  - lia.
  - rewrite IH. lia.
Qed.

Lemma totalSpent_sum (filtered : list Expense) :
  Dashboard.totalSpent filtered = sum_amounts filtered.
Proof. unfold Dashboard.totalSpent. rewrite reduce_amounts. lia. Qed.

Lemma totalBudget_sum (budgets : list Budget) :
  Dashboard.totalBudget budgets = sum_limits budgets.
Proof. unfold Dashboard.totalBudget. rewrite reduce_limits. lia. Qed.

(** C8.  With [limit] the sum of the budget limits and [spent] the sum of
    the amounts of the selected expenses, the dashboard's balance is
    [remainingBudget limit spent], which is exactly [limit - spent] and is
    negative whenever [spent > limit].  The figure shown is
    [max 0 (limit - spent)], never negative, while the over-budget styling
    is decided on the signed value: it is on exactly when [spent > limit]. *)
Theorem currentBalance_is_remainingBudget :
  forall (budgets : list Budget) (filtered : list Expense),
    let limit := sum_limits budgets in
    let spent := sum_amounts filtered in
    Dashboard.currentBalance budgets filtered = remainingBudget limit spent
    /\ remainingBudget limit spent = limit - spent
    /\ (spent > limit -> Dashboard.currentBalance budgets filtered < 0)
    /\ Dashboard.remainingShown budgets filtered = Z.max 0 (limit - spent)
    /\ 0 <= Dashboard.remainingShown budgets filtered
    /\ (Dashboard.remainingIsRed budgets filtered = true <-> spent > limit)
    /\ (Dashboard.badgeIsRed budgets filtered = true <-> spent > limit).
Proof.
  intros budgets filtered limit spent.
  assert (Hbal : Dashboard.currentBalance budgets filtered = limit - spent).
  { unfold Dashboard.currentBalance. rewrite totalBudget_sum, totalSpent_sum. reflexivity. }
  unfold Dashboard.remainingShown, Dashboard.remainingIsRed, Dashboard.badgeIsRed.
  rewrite totalBudget_sum, totalSpent_sum, Hbal. unfold remainingBudget.
  fold limit spent.
  repeat split; lia.
Qed.

(** ** The category breakdown *)

Lemma existsb_eqb_In (x : string) (l : list string) :
  existsb (String.eqb x) l = true <-> In x l.
Proof.
  rewrite existsb_exists. split.
  - intros (y & Hy & Heq). apply String.eqb_eq in Heq. now subst.
  - intros Hx. exists x. split; [exact Hx | apply String.eqb_refl].
Qed.

Lemma Set_add_all_In (items seen : list string) (x : string) :
  In x (Set_add_all seen items) <-> In x seen \/ In x items.
Proof.
  revert seen. induction items as [|y items IH]; intros seen; simpl.
  - tauto.
  - destruct (existsb (String.eqb y) seen) eqn:Hy; rewrite IH.
    + apply existsb_eqb_In in Hy. split; [tauto|].
      intros [H | [<- | H]]; auto.
    + rewrite in_app_iff. simpl. tauto.
Qed.

Lemma Set_add_all_NoDup (items seen : list string) :
  NoDup seen -> NoDup (Set_add_all seen items).
Proof.
  revert seen. induction items as [|y items IH]; intros seen Hnd; simpl; [exact Hnd|].
  destruct (existsb (String.eqb y) seen) eqn:Hy; apply IH; [exact Hnd|].
  apply NoDup_app; [exact Hnd | repeat constructor; intros [] |].
  intros a Ha [<- | []].
  apply existsb_eqb_In in Ha. congruence.
Qed.

Lemma Array_from_Set_In (items : list string) (x : string) :
  In x (Array_from_Set items) <-> In x items.
Proof. unfold Array_from_Set. rewrite Set_add_all_In. simpl. tauto. Qed.

Lemma Array_from_Set_NoDup (items : list string) : NoDup (Array_from_Set items).
Proof. apply Set_add_all_NoDup. constructor. Qed.

Section Breakdown.
Variable now : JSDate.
Variable endOfDay : JSDate -> JSDate.
Variables startDate endDate : option JSDate.

Lemma filteredExpenses_filter (expenses : list Expense) :
  Dashboard.filteredExpenses now endOfDay expenses startDate endDate
  = filter (in_range now endOfDay startDate endDate) expenses.
Proof.
  unfold Dashboard.filteredExpenses, in_range, Dashboard.currentMonth, Dashboard.currentYear.
  destruct startDate, endDate; try reflexivity;
    apply filter_ext; intros e; simpl; rewrite Z.geb_leb; reflexivity.
Qed.

Lemma spent_of_filtered (inRange : Expense -> bool) (cat : string) (expenses : list Expense) :
  reduce (fun sum e => sum + amount e) 0
    (filter (fun e => String.eqb (category e) cat) (filter inRange expenses))
  = rangeSpend inRange cat expenses.
Proof.
  rewrite reduce_amounts. rewrite Z.add_0_l.
  induction expenses as [|e l IH]; simpl; [reflexivity|].
  destruct (inRange e); simpl.
  - destruct (String.eqb (category e) cat); simpl; rewrite IH; reflexivity.
  - rewrite IH. reflexivity.
Qed.

Lemma category_of_filtered (inRange : Expense -> bool) (cat : string)
    (expenses : list Expense) :
  In cat (map category (filter inRange expenses)) <-> category_in_range inRange cat expenses.
Proof.
  unfold category_in_range. rewrite in_map_iff. split.
  - intros (e & Hc & He). apply filter_In in He. exists e. tauto.
  - intros (e & He & Hr & Hc). exists e. rewrite filter_In. tauto.
Qed.

Lemma data_names_NoDup (spent : string -> Z) (keep : CategoryDatum -> bool)
    (cats : list string) :
  NoDup cats ->
  NoDup (map name (filter keep (map (fun cat => mkDatum cat (spent cat)) cats))).
Proof.
  induction cats as [|c cats IH]; simpl; intros Hnd; [constructor|].
  inversion Hnd as [|c' cs Hnotin Hrest]; subst.
  destruct (keep (mkDatum c (spent c))); simpl; auto.
  constructor; auto.
  intros Hin. apply Hnotin.
  apply in_map_iff in Hin. destruct Hin as (d & Hd & Hin).
  apply filter_In in Hin. destruct Hin as [Hin _].
  apply in_map_iff in Hin. destruct Hin as (c0 & <- & Hc0).
  simpl in Hd. now subst.
Qed.

Lemma categoryBreakdown_entries (expenses : list Expense) (budgets : list Budget)
    (cat : string) (v : Z) :
  let inRange := in_range now endOfDay startDate endDate in
  In (mkDatum cat v)
     (Dashboard.categoryBreakdown now endOfDay expenses budgets startDate endDate)
  <-> (In cat (map budget_category budgets) \/ category_in_range inRange cat expenses)
      /\ v = rangeSpend inRange cat expenses /\ v > 0.
Proof.
  intros inRange.
  unfold Dashboard.categoryBreakdown, Dashboard.categoryData.
  rewrite filteredExpenses_filter. fold inRange.
  rewrite filter_In, in_map_iff. simpl.
  split.
  - intros ((c & Heq & Hc) & Hpos).
    injection Heq as -> <-.
    rewrite spent_of_filtered in *.
    rewrite Array_from_Set_In, in_app_iff, category_of_filtered in Hc.
    repeat split; [exact Hc | lia].
  - intros (Hc & -> & Hpos). split.
    + exists cat. rewrite spent_of_filtered. split; [reflexivity|].
      apply Array_from_Set_In. rewrite in_app_iff, category_of_filtered. exact Hc.
    + lia.
Qed.
End Breakdown.

(** C5, with the spend strictly positive.  For every budget list, expense list and date range
    (absent bounds select the current calendar month), the breakdown has
    at most one entry per category, and [{cat, v}] is an entry exactly
    when [cat] is a category of a budget or of an expense in the range,
    [v] is the sum of the amounts of the expenses of [cat] in the range,
    and [v] is strictly positive.  In particular, with no budgets the
    entries are those of the categories of the expenses in the range whose
    summed spend is strictly positive. *)
Theorem categoryBreakdown_positive_spend :
  forall (now : JSDate) (endOfDay : JSDate -> JSDate)
         (expenses : list Expense) (budgets : list Budget)
         (startDate endDate : option JSDate),
    let inRange := in_range now endOfDay startDate endDate in
    let data := Dashboard.categoryBreakdown now endOfDay expenses budgets startDate endDate in
    let data0 := Dashboard.categoryBreakdown now endOfDay expenses [] startDate endDate in
    NoDup (map name data)
    /\ (forall cat v,
           In (mkDatum cat v) data <->
           (In cat (map budget_category budgets) \/ category_in_range inRange cat expenses)
           /\ v = rangeSpend inRange cat expenses /\ v > 0)
    /\ (forall cat v,
           In (mkDatum cat v) data0 <->
           category_in_range inRange cat expenses
           /\ v = rangeSpend inRange cat expenses /\ v > 0).
Proof.
  intros now endOfDay expenses budgets startDate endDate inRange data data0.
  split; [|split].
  - subst data. unfold Dashboard.categoryBreakdown, Dashboard.categoryData.
    apply (data_names_NoDup
             (fun cat => reduce (fun sum e => sum + amount e) 0
                           (filter (fun e => String.eqb (category e) cat) _))).
    apply Array_from_Set_NoDup.
  - intros cat v. apply categoryBreakdown_entries.
  - intros cat v. subst data0. rewrite categoryBreakdown_entries. simpl. tauto.
Qed.

(** C5 as the specification words it does not hold.  With no budgets and
    one expense of amount zero dated in the current month, the category
    "Food" is present in the expenses, yet the breakdown is empty.  With
    no budgets and one expense of amount -50 (a refund) dated in the
    current month, the spend of "Bills" is not zero, yet the breakdown is
    empty again. *)
Lemma categoryBreakdown_non_positive_counterexample :
  ~ breakdown_as_stated
      (in_range Scenario.today (fun d => d) None None)
      [ mkExpense "1" 0 "Food" "free sample" Scenario.today ]
      []
      (Dashboard.categoryBreakdown Scenario.today (fun d => d)
         [ mkExpense "1" 0 "Food" "free sample" Scenario.today ]
         [] None None)
  /\ ~ breakdown_as_stated
        (in_range Scenario.today (fun d => d) None None)
        [ mkExpense "2" (-50) "Bills" "refund" Scenario.today ]
        []
        (Dashboard.categoryBreakdown Scenario.today (fun d => d)
           [ mkExpense "2" (-50) "Bills" "refund" Scenario.today ]
           [] None None).
Proof.
  split.
  - intros [_ Hall].
    assert (Hin : In (mkDatum "Food" 0) []).
    { apply (Hall eq_refl); [discriminate|].
      eexists. split; [left; reflexivity|]. split; reflexivity. }
    exact Hin.
  - intros [Hiff _].
    assert (Hin : In (mkDatum "Bills" (-50)) []).
    { apply Hiff. split; [|split; [reflexivity | discriminate]].
      right. eexists. split; [left; reflexivity|]. split; reflexivity. }
    exact Hin.
Qed.

(** ** The expense intake pipeline *)

Lemma spentBefore_monthlySpend (now : JSDate) (cat : string) (stored : list Expense) :
  reduce (fun sum e => sum + amount e) 0
    (filter (fun e =>
               let d := date e in
               String.eqb (category e) cat
               && (getMonth d =? getMonth now)
               && (getFullYear d =? getFullYear now))%bool
            stored)
  = priorSpendThisMonthInCategory now cat stored.
Proof.
  rewrite reduce_amounts, Z.add_0_l. unfold priorSpendThisMonthInCategory.
  induction stored as [|e l IH]; simpl; [reflexivity|].
  destruct ((String.eqb (category e) cat && (getMonth (date e) =? getMonth now)
             && (getFullYear (date e) =? getFullYear now))%bool); simpl; rewrite IH; reflexivity.
Qed.

(** Only the expenses of the category dated in the current month and
    year count towards the prior spend, each once. *)
Lemma priorSpend_insert (now : JSDate) (cat : string) (l1 l2 : list Expense) (e : Expense) :
  (category e = cat /\ getMonth (date e) = getMonth now
   /\ getFullYear (date e) = getFullYear now ->
   priorSpendThisMonthInCategory now cat (l1 ++ e :: l2)
   = amount e + priorSpendThisMonthInCategory now cat (l1 ++ l2))
  /\ (~ (category e = cat /\ getMonth (date e) = getMonth now
         /\ getFullYear (date e) = getFullYear now) ->
      priorSpendThisMonthInCategory now cat (l1 ++ e :: l2)
      = priorSpendThisMonthInCategory now cat (l1 ++ l2)).
Proof.
  unfold priorSpendThisMonthInCategory.
  assert (Hstep : monthlySpend (l1 ++ e :: l2) cat (getMonth now) (getFullYear now)
                  = monthlySpend [e] cat (getMonth now) (getFullYear now)
                    + monthlySpend (l1 ++ l2) cat (getMonth now) (getFullYear now)).
  { induction l1 as [|a l1 IH]; simpl in *; lia. }
  rewrite Hstep. simpl.
  destruct (String.eqb_spec (category e) cat) as [Hc | Hc];
    destruct (Z.eqb_spec (getMonth (date e)) (getMonth now)) as [Hm | Hm];
    destruct (Z.eqb_spec (getFullYear (date e)) (getFullYear now)) as [Hy | Hy];
    simpl; split; intros H; try lia; tauto.
Qed.

Lemma budgetLimit_categoryLimit (cat : string) (budgets : list Budget) :
  or_zero (option_map limit (find (fun b => String.eqb (budget_category b) cat) budgets))
  = categoryLimit budgets cat.
Proof.
  induction budgets as [|b l IH]; simpl; [reflexivity|].
  destruct (String.eqb (budget_category b) cat); [apply or_zero_id | exact IH].
Qed.



(** A successful save: the returned expense is appended to the store's
    list, and the reply is computed from the captured [state]. *)
Lemma handleAddExpense_saved
    (saveExpense : ExpenseData -> string -> Awaited (option Expense)) (now : JSDate)
    (state prev : AppState) (expenseData : ExpenseData) (specificDate : string)
    (savedExpense : Expense) :
  saveExpense expenseData specificDate = Resolved (Some savedExpense) ->
  runState (App.handleAddExpense saveExpense now state expenseData specificDate) prev
  = (mkAddResult (Some savedExpense)
       (Some (categoryLimit (budgets state) (data_category expenseData)
              - (priorSpendThisMonthInCategory now (data_category expenseData) (expenses state)
                 + data_amount expenseData)))
       None,
     mkAppState (expenses prev ++ [savedExpense]) (budgets prev) (chatHistory prev)).
Proof.
  intros Hsave. unfold App.handleAddExpense. rewrite Hsave. simpl.
  rewrite spentBefore_monthlySpend, budgetLimit_categoryLimit. reflexivity.
Qed.

(** A failed save: an error is returned and the store is not touched. *)
Lemma handleAddExpense_not_saved
    (saveExpense : ExpenseData -> string -> Awaited (option Expense)) (now : JSDate)
    (state : AppState) (expenseData : ExpenseData) (specificDate : string) :
  (forall e, saveExpense expenseData specificDate <> Resolved (Some e)) ->
  exists err,
    (forall prev,
        runState (App.handleAddExpense saveExpense now state expenseData specificDate) prev
        = (mkAddResult None None (Some err), prev))
    /\ truthy err = true
    /\ err <> ChatInterface.restate_text
    /\ (saveExpense expenseData specificDate = Resolved None ->
        err = "I couldn't save that expense. Please check your connection.")
    /\ (saveExpense expenseData specificDate = Rejected ->
        err = "Something went wrong while adding the expense.").
Proof.
  intros Hfail. unfold App.handleAddExpense.
  destruct (saveExpense expenseData specificDate) as [[e|]|].
  - exfalso. exact (Hfail e eq_refl).
  - eexists. split; [reflexivity|].
    repeat split; discriminate.
  - eexists. split; [reflexivity|].
    repeat split; discriminate.
Qed.

Lemma runState_bind {A B : Type} (c : App.Store A) (f : A -> App.Store B) (s : AppState) :
  runState (bind c f) s = runState (f (fst (runState c s))) (snd (runState c s)).
Proof. simpl. destruct (runState c s). reflexivity. Qed.

(** A blank text is ignored: [handleSend] returns before anything is
    appended or parsed. *)
Lemma sendMessage_blank (w : Collaborators) (state prev : AppState)
    (textOverride : option string) (inputValue : string) :
  truthy (trim (ChatInterface.textToSend textOverride inputValue)) = false ->
  execState (sendMessage w state textOverride inputValue) prev = prev.
Proof.
  intros Hblank. unfold sendMessage, ChatInterface.handleSend.
  rewrite Hblank. reflexivity.
Qed.

(** A send run from the state the chat tab was rendered with.  Take a
    send whose text is not blank, whose parse yields a numeric
    amount and whose persistence write returns the canonical expense
    [savedExpense], run from the state the chat tab was rendered with (the
    captured state and the store agree on expenses and budgets).  The
    pipeline appends [savedExpense] to the stored expenses, leaves the
    budgets alone, and reports
    [budgetLeft = categoryLimit - (priorSpendThisMonthInCategory + newAmount)]
    in the metadata of its reply, where the prior spend is the sum of the
    amounts of exactly the expenses stored before this one whose category
    is the new expense's and whose date is in the current month and year. *)
Theorem intake_appends_and_reports_budgetLeft :
  forall (w : Collaborators) (state prev : AppState)
         (textOverride : option string) (inputValue : string)
         (parsed : ParsedExpense) (newAmount : Z) (savedExpense : Expense),
    let text := ChatInterface.textToSend textOverride inputValue in
    let cat := parsed_category parsed in
    truthy (trim text) = true ->
    parseExpenseMessage (gemini w text) = Some parsed ->
    parsed_amount parsed = Some newAmount ->
    saveExpense w (mkExpenseData newAmount cat (parsed_description parsed))
                (parsed_date parsed) = Resolved (Some savedExpense) ->
    expenses state = expenses prev ->
    budgets state = budgets prev ->
    let left := categoryLimit (budgets prev) cat
                - (priorSpendThisMonthInCategory (now w) cat (expenses prev) + newAmount) in
    let s' := execState (sendMessage w state textOverride inputValue) prev in
    expenses s' = expenses prev ++ [savedExpense]
    /\ budgets s' = budgets prev
    /\ chatHistory s' =
         chatHistory prev
         ++ [ mkChatMessage (toString (getTime (t_send w))) user text (t_send w) None;
              mkChatMessage (toString (getTime (t_reply w) + 1)) assistant
                (ChatInterface.success_text (toLocaleString_enIN w) savedExpense left)
                (t_reply w)
                (Some (mkMetadata (Some savedExpense) (Some left))) ].
Proof.
  intros w state prev textOverride inputValue parsed newAmount savedExpense text cat
         Htext Hparse Hamount Hsave Hexp Hbud left s'.
  subst s' left. unfold sendMessage, ChatInterface.handleSend.
  fold text. rewrite Htext. simpl negb. cbv iota.
  unfold execState. rewrite runState_bind, Hparse, Hamount, runState_bind.
  rewrite (handleAddExpense_saved _ _ _ _ _ _ savedExpense Hsave).
  simpl. rewrite Hexp, Hbud, <- app_assoc. simpl. repeat split.
Qed.

(** C2.  Take a send whose text is not blank and whose parse fails or
    yields no numeric amount.  The stored expenses and the budgets are
    unchanged, and the chat log gains the user message followed by exactly
    one assistant message, which asks to restate the amount. *)
Theorem unparsed_input_only_asks_to_restate :
  forall (w : Collaborators) (state prev : AppState)
         (textOverride : option string) (inputValue : string),
    let text := ChatInterface.textToSend textOverride inputValue in
    truthy (trim text) = true ->
    (parseExpenseMessage (gemini w text) = None
     \/ exists parsed, parseExpenseMessage (gemini w text) = Some parsed
                       /\ parsed_amount parsed = None) ->
    let s' := execState (sendMessage w state textOverride inputValue) prev in
    expenses s' = expenses prev
    /\ budgets s' = budgets prev
    /\ chatHistory s' =
         chatHistory prev
         ++ [ mkChatMessage (toString (getTime (t_send w))) user text (t_send w) None;
              mkChatMessage (toString (getTime (t_reply w) + 1)) assistant
                "I couldn't catch that amount. Try saying 'Spent ₹500 on lunch'."
                (t_reply w) None ].
Proof.
  intros w state prev textOverride inputValue text Htext Hparse s'.
  subst s'. unfold sendMessage, ChatInterface.handleSend.
  fold text. rewrite Htext. simpl negb. cbv iota.
  unfold execState. rewrite runState_bind.
  destruct Hparse as [Hnone | (parsed & Hsome & Hamount)].
  - rewrite Hnone. simpl. rewrite <- app_assoc. repeat split.
  - rewrite Hsome, Hamount. simpl. rewrite <- app_assoc. repeat split.
Qed.

(** C3.  Take a send whose text is not blank, whose parse yields a numeric
    amount and whose persistence write returns no canonical expense.  The
    stored expenses and the budgets are unchanged, and the assistant's
    reply carries a save error that differs from the message sent on a
    parse failure: "I couldn't save that expense. Please check your
    connection." when the write returns [null], "Something went wrong
    while adding the expense." when it throws. *)
Theorem failed_save_reports_error_and_keeps_state :
  forall (w : Collaborators) (state prev : AppState)
         (textOverride : option string) (inputValue : string)
         (parsed : ParsedExpense) (newAmount : Z),
    let text := ChatInterface.textToSend textOverride inputValue in
    let expenseData :=
      mkExpenseData newAmount (parsed_category parsed) (parsed_description parsed) in
    truthy (trim text) = true ->
    parseExpenseMessage (gemini w text) = Some parsed ->
    parsed_amount parsed = Some newAmount ->
    (forall e, saveExpense w expenseData (parsed_date parsed) <> Resolved (Some e)) ->
    let s' := execState (sendMessage w state textOverride inputValue) prev in
    expenses s' = expenses prev
    /\ budgets s' = budgets prev
    /\ exists err,
         chatHistory s' =
           chatHistory prev
           ++ [ mkChatMessage (toString (getTime (t_send w))) user text (t_send w) None;
                mkChatMessage (toString (getTime (t_reply w) + 1)) assistant err
                  (t_reply w) None ]
         /\ err <> "I couldn't catch that amount. Try saying 'Spent ₹500 on lunch'."
         /\ (saveExpense w expenseData (parsed_date parsed) = Resolved None ->
             err = "I couldn't save that expense. Please check your connection.")
         /\ (saveExpense w expenseData (parsed_date parsed) = Rejected ->
             err = "Something went wrong while adding the expense.").
Proof.
  intros w state prev textOverride inputValue parsed newAmount text expenseData
         Htext Hparse Hamount Hfail s'.
  destruct (handleAddExpense_not_saved (saveExpense w) (now w) state
              expenseData (parsed_date parsed) Hfail)
    as (err & Hrun & Htruthy & Hdistinct & Hnull & Hthrow).
  assert (Hs' : s' = mkAppState (expenses prev) (budgets prev)
                       ((chatHistory prev
                         ++ [mkChatMessage (toString (getTime (t_send w))) user text
                               (t_send w) None])
                        ++ [ChatInterface.reply (t_reply w) err None])).
  { subst s'. unfold sendMessage, ChatInterface.handleSend.
    fold text. rewrite Htext. simpl negb. cbv iota.
    unfold execState. rewrite runState_bind, Hparse, Hamount, runState_bind.
    fold expenseData. rewrite Hrun. simpl. rewrite Htruthy. reflexivity. }
  rewrite Hs'. simpl. repeat split.
  exists err. rewrite <- app_assoc. simpl. repeat split; auto.
Qed.



(** The example of the specification: a new Food expense of 2000 leaves
    15000 - (12000 + 2000) = 1000. *)
Lemma intake_appends_and_reports_budgetLeft_witness :
  let w := Scenario.world (Resolved (Some Scenario.lunch)) Scenario.saves in
  let saved := mkExpense "6" 2000 "Food" "lunch" Scenario.today in
  let s' := execState (sendMessage w Scenario.state0 None "Spent 2000 on lunch")
                      Scenario.state0 in
  expenses s' = Scenario.stored ++ [saved]
  /\ budgets s' = [mkBudget "Food" 15000]
  /\ chatHistory s' =
       [ mkChatMessage "1793620800000" user "Spent 2000 on lunch" Scenario.today None;
         mkChatMessage "1793620800001" assistant
           (ChatInterface.success_text toString saved 1000)
           Scenario.today
           (Some (mkMetadata (Some saved) (Some 1000))) ].
Proof.
  exact (intake_appends_and_reports_budgetLeft
           (Scenario.world (Resolved (Some Scenario.lunch)) Scenario.saves)
           Scenario.state0 Scenario.state0 None "Spent 2000 on lunch"
           Scenario.lunch 2000 (mkExpense "6" 2000 "Food" "lunch" Scenario.today)
           eq_refl eq_refl eq_refl eq_refl eq_refl eq_refl).
Defined.

(** C2 in the scenario: the parser call throws. *)
Lemma unparsed_input_only_asks_to_restate_witness :
  let w := Scenario.world Rejected Scenario.saves in
  let s' := execState (sendMessage w Scenario.state0 None "hello there") Scenario.state0 in
  expenses s' = Scenario.stored
  /\ budgets s' = [mkBudget "Food" 15000]
  /\ chatHistory s' =
       [ mkChatMessage "1793620800000" user "hello there" Scenario.today None;
         mkChatMessage "1793620800001" assistant
           "I couldn't catch that amount. Try saying 'Spent ₹500 on lunch'."
           Scenario.today None ].
Proof.
  exact (unparsed_input_only_asks_to_restate
           (Scenario.world Rejected Scenario.saves)
           Scenario.state0 Scenario.state0 None "hello there"
           eq_refl (or_introl eq_refl)).
Defined.

(** C3 in the scenario: the write returns [null]. *)
Lemma failed_save_reports_error_and_keeps_state_witness :
  let w := Scenario.world (Resolved (Some Scenario.lunch)) Scenario.fails in
  let s' := execState (sendMessage w Scenario.state0 None "Spent 2000 on lunch")
                      Scenario.state0 in
  expenses s' = Scenario.stored
  /\ budgets s' = [mkBudget "Food" 15000]
  /\ exists err,
       chatHistory s' =
         [ mkChatMessage "1793620800000" user "Spent 2000 on lunch" Scenario.today None;
           mkChatMessage "1793620800001" assistant err Scenario.today None ]
       /\ err <> "I couldn't catch that amount. Try saying 'Spent ₹500 on lunch'."
       /\ (Scenario.fails (mkExpenseData 2000 "Food" "lunch") "2026-11-02" = Resolved None ->
           err = "I couldn't save that expense. Please check your connection.")
       /\ (Scenario.fails (mkExpenseData 2000 "Food" "lunch") "2026-11-02" = Rejected ->
           err = "Something went wrong while adding the expense.").
Proof.
  apply (failed_save_reports_error_and_keeps_state
           (Scenario.world (Resolved (Some Scenario.lunch)) Scenario.fails)
           Scenario.state0 Scenario.state0 None "Spent 2000 on lunch"
           Scenario.lunch 2000 eq_refl eq_refl eq_refl).
  intros e. discriminate.
Defined.

(** ** The scenario, evaluated *)

Example upsert_matches_ignoring_case :
  App.newBudgets_upsert "FOOD" 1 DEFAULT_BUDGETS
  = [ mkBudget "Food" 1; mkBudget "Transport" 5000; mkBudget "Bills" 10000;
      mkBudget "Shopping" 8000; mkBudget "Health" 5000; mkBudget "Entertainment" 5000;
      mkBudget "Other" 5000 ].
Proof. reflexivity. Qed.

Example upsert_appends_new_category :
  App.newBudgets_upsert "Gym" 1200 [mkBudget "Food" 15000]
  = [mkBudget "Food" 15000; mkBudget "Gym" 1200].
Proof. reflexivity. Qed.

Example delete_compares_exactly :
  App.newBudgets_delete "food" DEFAULT_BUDGETS = DEFAULT_BUDGETS
  /\ App.newBudgets_delete "Food" [mkBudget "Food" 15000; mkBudget "Gym" 1200]
     = [mkBudget "Gym" 1200].
Proof. split; reflexivity. Qed.

Example scenario_prior_spend :
  priorSpendThisMonthInCategory Scenario.today "Food" Scenario.stored = 12000.
Proof. reflexivity. Qed.

Example scenario_breakdown :
  Dashboard.categoryBreakdown Scenario.today (fun d => d) Scenario.stored
    [mkBudget "Food" 15000; mkBudget "Bills" 10000] None None
  = [mkDatum "Food" 12000; mkDatum "Transport" 900; mkDatum "food" 300].
Proof. reflexivity. Qed.

Example scenario_breakdown_in_range :
  Dashboard.categoryBreakdown Scenario.today
    (fun d => mkDate (getTime d + 86399999) (getMonth d) (getFullYear d))
    Scenario.stored [] None (Some (mkDate 1791072000000 9 2026))
  = [mkDatum "Food" 4000].
Proof. reflexivity. Qed.

(** A category whose expenses sum to zero or less has no entry. *)
Example breakdown_drops_non_positive_spend :
  Dashboard.categoryBreakdown Scenario.today (fun d => d)
    [ mkExpense "1" 0 "Food" "free sample" Scenario.today;
      mkExpense "2" (-50) "Bills" "refund" Scenario.today;
      mkExpense "3" 40 "Other" "pen" Scenario.today ]
    [] None None
  = [mkDatum "Other" 40].
Proof. reflexivity. Qed.

(** The reply is computed from the captured state: an expense that reached
    the store after the capture is appended to, but not counted. *)
Example budgetLeft_follows_captured_state :
  runState (App.handleAddExpense Scenario.saves Scenario.today
              (mkAppState [] [mkBudget "Food" 15000] [])
              (mkExpenseData 2000 "Food" "lunch") "2026-11-02")
           Scenario.state0
  = (mkAddResult (Some (mkExpense "6" 2000 "Food" "lunch" Scenario.today)) (Some 13000) None,
     mkAppState (Scenario.stored ++ [mkExpense "6" 2000 "Food" "lunch" Scenario.today])
                [mkBudget "Food" 15000] []).
Proof. reflexivity. Qed.

Example blank_input_is_ignored :
  execState (sendMessage (Scenario.world Rejected Scenario.saves) Scenario.state0
               (Some "") "   ")
            Scenario.state0
  = Scenario.state0.
Proof. reflexivity. Qed.

(** ** What a send can and cannot do *)

(** X1.  Whatever the parser and the persistence collaborator answer, a
    send never changes the budgets.  A blank text changes nothing.  Any
    other text appends the user message and exactly one assistant reply;
    the stored expenses grow by one expense at the end exactly when that
    reply carries it as metadata, and are untouched otherwise. *)
Theorem sendMessage_frame :
  forall (w : Collaborators) (state prev : AppState)
         (textOverride : option string) (inputValue : string),
    let text := ChatInterface.textToSend textOverride inputValue in
    let s' := execState (sendMessage w state textOverride inputValue) prev in
    budgets s' = budgets prev
    /\ ((truthy (trim text) = false /\ s' = prev)
        \/ (truthy (trim text) = true
            /\ exists r,
                 role r = assistant
                 /\ chatHistory s' =
                      chatHistory prev
                      ++ [ mkChatMessage (toString (getTime (t_send w))) user text
                             (t_send w) None; r ]
                 /\ match metadata r with
                    | Some m => exists e, addedExpense m = Some e
                                          /\ expenses s' = expenses prev ++ [e]
                    | None => expenses s' = expenses prev
                    end)).
Proof.
  intros w state prev textOverride inputValue text s'.
  destruct (truthy (trim text)) eqn:Htext.
  2:{ subst s'. rewrite sendMessage_blank by exact Htext. split; [reflexivity|].
      left. split; reflexivity. }
  assert (Hrun : s' = snd (runState
            (ChatInterface.handleSend
               (App.handleAddExpense (saveExpense w) (now w) state)
               App.handleAddChatMessage (gemini w) (toLocaleString_enIN w)
               (t_send w) (t_reply w) textOverride inputValue) prev)) by reflexivity.
  unfold ChatInterface.handleSend in Hrun. fold text in Hrun.
  rewrite Htext in Hrun. simpl negb in Hrun. cbv iota in Hrun.
  rewrite runState_bind in Hrun.
  destruct (parseExpenseMessage (gemini w text)) as [parsed|] eqn:Hparse.
  2:{ simpl in Hrun. rewrite Hrun. simpl. split; [reflexivity|]. right.
      split; [reflexivity|]. eexists. rewrite <- app_assoc. simpl.
      split; [|split; [reflexivity|]]; reflexivity. }
  destruct (parsed_amount parsed) as [amt|] eqn:Hamount.
  2:{ simpl in Hrun. rewrite Hrun. simpl. split; [reflexivity|]. right.
      split; [reflexivity|]. eexists. rewrite <- app_assoc. simpl.
      split; [|split; [reflexivity|]]; reflexivity. }
  rewrite runState_bind in Hrun.
  destruct (saveExpense w (mkExpenseData amt (parsed_category parsed)
                             (parsed_description parsed)) (parsed_date parsed))
    as [[saved|]|] eqn:Hsave.
  - rewrite (handleAddExpense_saved _ _ _ _ _ _ saved Hsave) in Hrun.
    simpl in Hrun. rewrite Hrun. simpl. split; [reflexivity|]. right.
    split; [reflexivity|]. eexists. rewrite <- app_assoc. simpl.
    split; [|split; [reflexivity|]]; [reflexivity|].
    simpl. exists saved. split; reflexivity.
  - destruct (handleAddExpense_not_saved (saveExpense w) (now w) state
                (mkExpenseData amt (parsed_category parsed) (parsed_description parsed))
                (parsed_date parsed)) as (err & Herr & Htruthy & _).
    { intros e. rewrite Hsave. discriminate. }
    rewrite Herr in Hrun. simpl in Hrun. rewrite Htruthy in Hrun.
    rewrite Hrun. simpl. split; [reflexivity|]. right.
    split; [reflexivity|]. eexists. rewrite <- app_assoc. simpl.
    split; [|split; [reflexivity|]]; reflexivity.
  - destruct (handleAddExpense_not_saved (saveExpense w) (now w) state
                (mkExpenseData amt (parsed_category parsed) (parsed_description parsed))
                (parsed_date parsed)) as (err & Herr & Htruthy & _).
    { intros e. rewrite Hsave. discriminate. }
    rewrite Herr in Hrun. simpl in Hrun. rewrite Htruthy in Hrun.
    rewrite Hrun. simpl. split; [reflexivity|]. right.
    split; [reflexivity|]. eexists. rewrite <- app_assoc. simpl.
    split; [|split; [reflexivity|]]; reflexivity.
Qed.

(** ** The trend series *)

Lemma month_of_index (Y M i : Z) (d : JSDate) :
  valid_month d ->
  ((getMonth d =? Date_of_month_getMonth Y (M - i))
   && (getFullYear d =? Date_of_month_getFullYear Y (M - i)))%bool
  = (monthIndex d =? 12 * Y + M - i).
Proof.
  unfold valid_month, monthIndex, Date_of_month_getMonth, Date_of_month_getFullYear.
  intros Hd.
  pose proof (Z.div_mod (M - i) 12 ltac:(lia)) as Hdm.
  pose proof (Z.mod_pos_bound (M - i) 12 ltac:(lia)) as Hr.
  destruct (Z.eqb_spec (getMonth d) ((M - i) mod 12));
    destruct (Z.eqb_spec (getFullYear d) (Y + (M - i) / 12));
    destruct (Z.eqb_spec (12 * getFullYear d + getMonth d) (12 * Y + M - i));
    simpl; try reflexivity; exfalso; lia.
Qed.

(** The spend of the expenses whose month, counted from year 0, is [k]. *)
Fixpoint spend_of_month (k : Z) (expenses : list Expense) : Z :=
  match expenses with
  | [] => 0
  | e :: rest => (if monthIndex (date e) =? k then amount e else 0) + spend_of_month k rest
  end.

Lemma trendEntry_spent (now : JSDate) (monthShort : Z -> Z -> string)
    (expenses : list Expense) (i : Z) :
  Forall (fun e => valid_month (date e)) expenses ->
  trend_spent (DashboardTrend.trendEntry now monthShort expenses i)
  = spend_of_month (monthIndex now - i) expenses.
Proof.
  intros Hvalid. unfold DashboardTrend.trendEntry. simpl.
  rewrite reduce_amounts, Z.add_0_l.
  induction Hvalid as [|e l He Hl IH]; simpl; [reflexivity|].
  rewrite (month_of_index _ _ _ _ He).
  replace (12 * getFullYear now + getMonth now - i) with (monthIndex now - i)
    by (unfold monthIndex; lia).
  destruct (monthIndex (date e) =? monthIndex now - i); simpl; rewrite IH; reflexivity.
Qed.

Lemma five_months_partition (N : Z) (expenses : list Expense) :
  spend_of_month (N - 4) expenses + spend_of_month (N - 3) expenses
  + spend_of_month (N - 2) expenses + spend_of_month (N - 1) expenses
  + spend_of_month (N - 0) expenses
  = sum_amounts
      (filter (fun e => ((N - 4 <=? monthIndex (date e))
                         && (monthIndex (date e) <=? N))%bool) expenses).
Proof.
  induction expenses as [|e l IH]; simpl; [reflexivity|].
  destruct (Z.eqb_spec (monthIndex (date e)) (N - 4));
    destruct (Z.eqb_spec (monthIndex (date e)) (N - 3));
    destruct (Z.eqb_spec (monthIndex (date e)) (N - 2));
    destruct (Z.eqb_spec (monthIndex (date e)) (N - 1));
    destruct (Z.eqb_spec (monthIndex (date e)) (N - 0));
    destruct (Z.leb_spec (N - 4) (monthIndex (date e)));
    destruct (Z.leb_spec (monthIndex (date e)) N);
    simpl; lia.
Qed.

(** With amounts as exact integers.  For expenses with valid dates, the trend has five entries and
    counts every expense dated in the current month or in one of the four
    months before it exactly once, also across a change of year: the five
    totals add up to the sum of the amounts of those expenses, and no
    other expense is counted. *)
Theorem trendData_covers_last_five_months :
  forall (now : JSDate) (monthShort : Z -> Z -> string) (expenses : list Expense),
    Forall (fun e => valid_month (date e)) expenses ->
    List.length (DashboardTrend.trendData now monthShort expenses) = 5%nat
    /\ sum_trend (DashboardTrend.trendData now monthShort expenses)
       = sum_amounts (filter (in_last_months now 4) expenses).
Proof.
  intros now monthShort expenses Hvalid. split; [reflexivity|].
  unfold DashboardTrend.trendData. cbn [map sum_trend].
  rewrite !trendEntry_spent by exact Hvalid.
  pose proof (five_months_partition (monthIndex now) expenses) as H.
  unfold in_last_months. lia.
Qed.

(** In the scenario: 13200 was spent in November and 4000 in October. *)
Lemma trendData_covers_last_five_months_witness :
  List.length (DashboardTrend.trendData Scenario.today (fun m _ => toString m)
                 Scenario.stored) = 5%nat
  /\ sum_trend (DashboardTrend.trendData Scenario.today (fun m _ => toString m)
                  Scenario.stored)
     = sum_amounts (filter (in_last_months Scenario.today 4) Scenario.stored).
Proof.
  apply (trendData_covers_last_five_months Scenario.today (fun m _ => toString m)
           Scenario.stored).
  repeat constructor; simpl; lia.
Defined.

(** With one clock reading shared by the trend and the total.  When the clock shows a valid month, the last point of the trend
    is the current month, and its total is the "Current Month's Spending"
    figure the dashboard shows when no date filter is set. *)
Theorem trend_last_point_is_current_total :
  forall (now : JSDate) (monthShort : Z -> Z -> string)
         (endOfDay : JSDate -> JSDate) (expenses : list Expense),
    valid_month now ->
    nth_error (DashboardTrend.trendData now monthShort expenses) 4
    = Some (mkTrend (monthShort (getMonth now) (getFullYear now))
              (Dashboard.totalSpent
                 (Dashboard.filteredExpenses now endOfDay expenses None None))).
Proof.
  intros now monthShort endOfDay expenses Hnow.
  unfold DashboardTrend.trendData, DashboardTrend.trendEntry. simpl.
  unfold Date_of_month_getMonth, Date_of_month_getFullYear, valid_month in *.
  rewrite Z.sub_0_r, Z.mod_small, Z.div_small, Z.add_0_r by lia.
  reflexivity.
Qed.

(** In the scenario. *)
Lemma trend_last_point_is_current_total_witness :
  nth_error (DashboardTrend.trendData Scenario.today (fun m _ => toString m)
               Scenario.stored) 4
  = Some (mkTrend "10" 13200).
Proof.
  apply (trend_last_point_is_current_total Scenario.today (fun m _ => toString m)
           (fun d => d) Scenario.stored).
  unfold valid_month. simpl. lia.
Defined.

(** ** The breakdown against the total *)

Fixpoint sum_over (f : string -> Z) (cats : list string) : Z :=
  match cats with
  | [] => 0
  | c :: rest => f c + sum_over f rest
  end.

Lemma sum_over_ext (f g : string -> Z) (cats : list string) :
  (forall c, f c = g c) -> sum_over f cats = sum_over g cats.
Proof. intros H. induction cats as [|c l IH]; simpl; [reflexivity|]. now rewrite H, IH. Qed.

Lemma sum_over_add (f g : string -> Z) (cats : list string) :
  sum_over (fun c => f c + g c) cats = sum_over f cats + sum_over g cats.
Proof. induction cats as [|c l IH]; simpl; lia. Qed.

Lemma sum_over_absent (x : string) (a : Z) (cats : list string) :
  ~ In x cats -> sum_over (fun c => if String.eqb x c then a else 0) cats = 0.
Proof.
  induction cats as [|c l IH]; simpl; intros Hx; [reflexivity|].
  destruct (String.eqb_spec x c) as [-> | _]; [tauto|].
  rewrite IH by tauto. reflexivity.
Qed.

Lemma sum_over_once (x : string) (a : Z) (cats : list string) :
  NoDup cats -> In x cats ->
  sum_over (fun c => if String.eqb x c then a else 0) cats = a.
Proof.
  induction 1 as [|c l Hc Hl IH]; simpl; intros Hx; [tauto|].
  destruct (String.eqb_spec x c) as [-> | Hne].
  - rewrite sum_over_absent by exact Hc. lia.
  - rewrite IH by (destruct Hx; congruence). lia.
Qed.

(** The spend the breakdown computes for one category. *)
Definition categorySpend (filtered : list Expense) (cat : string) : Z :=
  reduce (fun sum e => sum + amount e) 0
    (filter (fun e => String.eqb (category e) cat) filtered).

Lemma categorySpend_cons (e : Expense) (l : list Expense) (cat : string) :
  categorySpend (e :: l) cat
  = (if String.eqb (category e) cat then amount e else 0) + categorySpend l cat.
Proof.
  unfold categorySpend. simpl.
  destruct (String.eqb (category e) cat); rewrite !reduce_amounts; simpl; lia.
Qed.

Lemma categorySpend_nonneg (l : list Expense) (cat : string) :
  Forall (fun e => 0 <= amount e) l -> 0 <= categorySpend l cat.
Proof.
  induction 1 as [|e l He Hl IH].
  - unfold categorySpend. simpl. unfold reduce. simpl. lia.
  - rewrite categorySpend_cons. destruct (String.eqb (category e) cat); lia.
Qed.

Lemma categorySpend_total (l : list Expense) (cats : list string) :
  NoDup cats -> (forall e, In e l -> In (category e) cats) ->
  sum_over (categorySpend l) cats = sum_amounts l.
Proof.
  intros Hnd. induction l as [|e l IH]; intros Hall.
  - simpl. clear Hall. induction cats as [|c cs IHc]; simpl; [reflexivity|].
    inversion Hnd; subst. rewrite IHc by assumption.
    unfold categorySpend, reduce. simpl. lia.
  - rewrite (sum_over_ext _ (fun c => (if String.eqb (category e) c then amount e else 0)
                                      + categorySpend l c))
      by (intros c; apply categorySpend_cons).
    rewrite sum_over_add, IH by (intros x Hx; apply Hall; now right).
    rewrite sum_over_once; [reflexivity | exact Hnd | apply Hall; now left].
Qed.

Lemma sum_values_positive_part (f : string -> Z) (cats : list string) :
  (forall c, 0 <= f c) ->
  sum_values (filter (fun d => value d >? 0) (map (fun cat => mkDatum cat (f cat)) cats))
  = sum_over f cats.
Proof.
  intros Hf. induction cats as [|c l IH]; simpl; [reflexivity|].
  destruct (Z.gtb_spec (f c) 0); simpl; rewrite IH; [reflexivity|].
  specialize (Hf c). lia.
Qed.

(** With amounts as exact integers.  When no selected expense has a negative amount, the values of
    the breakdown add up to the total spending shown for the same
    selection: every expense is counted in exactly one entry, and the
    categories left out have spent nothing. *)
Theorem categoryData_adds_up_to_totalSpent :
  forall (filtered : list Expense) (budgets : list Budget),
    Forall (fun e => 0 <= amount e) filtered ->
    sum_values (Dashboard.categoryData filtered budgets) = Dashboard.totalSpent filtered.
Proof.
  intros filtered budgets Hpos.
  unfold Dashboard.categoryData.
  change (sum_values
            (filter (fun d => value d >? 0)
               (map (fun cat => mkDatum cat (categorySpend filtered cat))
                  (Array_from_Set (map budget_category budgets ++ map category filtered))))
          = Dashboard.totalSpent filtered).
  rewrite sum_values_positive_part by (intros c; apply categorySpend_nonneg; exact Hpos).
  rewrite totalSpent_sum. apply categorySpend_total.
  - apply Array_from_Set_NoDup.
  - intros e He. apply Array_from_Set_In, in_or_app. right. now apply in_map.
Qed.

(** In the scenario: 12000 + 900 + 300 = 13200. *)
Lemma categoryData_adds_up_to_totalSpent_witness :
  sum_values
    (Dashboard.categoryData
       (Dashboard.filteredExpenses Scenario.today (fun d => d) Scenario.stored None None)
       [mkBudget "Food" 15000])
  = 13200.
Proof.
  apply (categoryData_adds_up_to_totalSpent
           (Dashboard.filteredExpenses Scenario.today (fun d => d) Scenario.stored None None)
           [mkBudget "Food" 15000]).
  repeat constructor; simpl; lia.
Defined.

(** ** The reply against the dashboard *)

Lemma rangeSpend_app (inRange : Expense -> bool) (cat : string) (l1 l2 : list Expense) :
  rangeSpend inRange cat (l1 ++ l2) = rangeSpend inRange cat l1 + rangeSpend inRange cat l2.
Proof. induction l1 as [|e l IH]; simpl; lia. Qed.

Lemma priorSpend_rangeSpend (now : JSDate) (endOfDay : JSDate -> JSDate) (cat : string)
    (stored : list Expense) :
  priorSpendThisMonthInCategory now cat stored
  = rangeSpend (in_range now endOfDay None None) cat stored.
Proof.
  unfold priorSpendThisMonthInCategory.
  induction stored as [|e l IH]; simpl; [reflexivity|].
  rewrite IH.
  destruct (String.eqb (category e) cat);
    destruct (getMonth (date e) =? getMonth now);
    destruct (getFullYear (date e) =? getFullYear now); reflexivity.
Qed.

(** With amounts as exact integers and a capture in step with the store.  Let the persistence collaborator return an expense with the
    amount and category it was given.  After the add, the [budgetLeft] of
    the reply is the category limit minus what the dashboard's breakdown
    counts for that category in the current month, when the returned
    expense is dated in the current month; when it is dated in another
    month the reply has still subtracted its amount, which the breakdown
    of the current month does not count. *)
Theorem budgetLeft_against_breakdown :
  forall (saveExpense : ExpenseData -> string -> Awaited (option Expense))
         (now : JSDate) (endOfDay : JSDate -> JSDate)
         (state prev : AppState) (expenseData : ExpenseData) (specificDate : string)
         (savedExpense : Expense),
    let cat := data_category expenseData in
    let run := runState (App.handleAddExpense saveExpense now state expenseData specificDate)
                        prev in
    let thisMonth := in_range now endOfDay None None in
    saveExpense expenseData specificDate = Resolved (Some savedExpense) ->
    expenses state = expenses prev ->
    budgets state = budgets prev ->
    amount savedExpense = data_amount expenseData ->
    category savedExpense = cat ->
    result_budgetLeft (fst run)
    = Some (categoryLimit (budgets (snd run)) cat
            - rangeSpend thisMonth cat (expenses (snd run))
            - (if thisMonth savedExpense then 0 else data_amount expenseData)).
Proof.
  intros saveExpense now endOfDay state prev expenseData specificDate savedExpense
         cat run thisMonth Hsave Hexp Hbud Hamount Hcat.
  subst run. rewrite (handleAddExpense_saved _ _ _ _ _ _ savedExpense Hsave). simpl.
  rewrite Hexp, Hbud, rangeSpend_app, (priorSpend_rangeSpend now endOfDay). simpl.
  fold cat thisMonth. rewrite Hcat, String.eqb_refl, Hamount.
  destruct (thisMonth savedExpense); simpl; f_equal; lia.
Qed.

(** In the scenario: the reply says 1000, the limit is 15000 and the
    breakdown counts 14000 for Food after the add. *)
Lemma budgetLeft_against_breakdown_witness :
  let run := runState (App.handleAddExpense Scenario.saves Scenario.today Scenario.state0
                         (mkExpenseData 2000 "Food" "lunch") "2026-11-02")
                      Scenario.state0 in
  result_budgetLeft (fst run)
  = Some (categoryLimit (budgets (snd run)) "Food"
          - rangeSpend (in_range Scenario.today (fun d => d) None None) "Food"
              (expenses (snd run))
          - 0).
Proof.
  exact (budgetLeft_against_breakdown Scenario.saves Scenario.today (fun d => d)
           Scenario.state0 Scenario.state0 (mkExpenseData 2000 "Food" "lunch") "2026-11-02"
           (mkExpense "6" 2000 "Food" "lunch" Scenario.today)
           eq_refl eq_refl eq_refl eq_refl eq_refl).
Defined.

(** ** Loading the state *)

Lemma budget_rows_copy (rows : list Budget) :
  map (fun b => mkBudget (budget_category b) (limit b)) rows = rows.
Proof.
  induction rows as [|[c l] rows IH]; simpl; [reflexivity|]. now rewrite IH.
Qed.

(** X6.  [fetchState] rejects only when the user lookup rejects.  The
    state it resolves with always has at least one budget and at least one
    chat message: the budgets are the default set or exactly the budget
    rows of the signed-in user (never a merge of the two), and the
    expenses are empty or one per row of a successful expenses query, in
    row order. *)
Theorem fetchState_loaded_state :
  forall (getUser : Awaited (option User)) (now : JSDate)
         (selectExpenses : string -> Awaited (QueryResult ExpenseRow))
         (selectBudgets : string -> Awaited (QueryResult Budget))
         (selectChat : string -> Awaited (QueryResult ChatMessage)),
    match apiService.fetchState getUser now selectExpenses selectBudgets selectChat with
    | Rejected => getUser = Rejected
    | Resolved s =>
        budgets s <> [] /\ chatHistory s <> []
        /\ (budgets s = DEFAULT_BUDGETS
            \/ exists authUser answer,
                 getUser = Resolved (Some authUser)
                 /\ selectBudgets (user_id authUser) = Resolved answer
                 /\ q_data answer = Some (budgets s))
        /\ (expenses s = []
            \/ exists authUser answer rows,
                 getUser = Resolved (Some authUser)
                 /\ selectExpenses (user_id authUser) = Resolved answer
                 /\ q_error answer = false
                 /\ q_data answer = Some rows
                 /\ expenses s = map apiService.expense_of_row rows)
    end.
Proof.
  intros getUser now selectExpenses selectBudgets selectChat.
  unfold apiService.fetchState.
  destruct getUser as [[authUser|]|]; [| | reflexivity].
  2:{ simpl. repeat split; try discriminate; left; reflexivity. }
  destruct (selectExpenses (user_id authUser)) as [ea|] eqn:He.
  2:{ simpl. repeat split; try discriminate; left; reflexivity. }
  destruct (q_error ea) eqn:Herr.
  { simpl. repeat split; try discriminate; left; reflexivity. }
  destruct (selectBudgets (user_id authUser)) as [ba|] eqn:Hb.
  2:{ simpl. repeat split; try discriminate; left; reflexivity. }
  destruct (selectChat (user_id authUser)) as [ca|] eqn:Hc.
  2:{ simpl. repeat split; try discriminate; left; reflexivity. }
  assert (Hexp : forall l,
             l = map apiService.expense_of_row
                   (match q_data ea with Some rows => rows | None => [] end) ->
             l = [] \/ exists authUser0 answer rows,
                 Resolved (Some authUser) = Resolved (Some authUser0)
                 /\ selectExpenses (user_id authUser0) = Resolved answer
                 /\ q_error answer = false
                 /\ q_data answer = Some rows
                 /\ l = map apiService.expense_of_row rows).
  { intros l Hl. destruct (q_data ea) as [rows|] eqn:Hd.
    - right. exists authUser, ea, rows. repeat split; assumption.
    - left. exact Hl. }
  assert (Hchat : match q_data ca with
                  | Some (m :: rest) => m :: rest
                  | _ => chatHistory (apiService.defaultState now)
                  end <> []).
  { destruct (q_data ca) as [[|m rest]|]; discriminate. }
  destruct (q_data ba) as [[|b rest]|] eqn:Hd; simpl budgets; simpl chatHistory;
    simpl expenses.
  - repeat split; [discriminate | exact Hchat | left; reflexivity | apply Hexp; reflexivity].
  - repeat split; [discriminate | exact Hchat | | apply Hexp; reflexivity].
    right. exists authUser, ba. repeat split; [exact Hb|].
    rewrite Hd. f_equal. symmetry. apply (budget_rows_copy (b :: rest)).
  - repeat split; [discriminate | exact Hchat | left; reflexivity | apply Hexp; reflexivity].
Qed.

Lemma fetchState_budgets_source (db : Database) (s : AppState) :
  fetchState_from db = Resolved s ->
  budgets s = DEFAULT_BUDGETS
  \/ exists uid answer,
       db_selectBudgets db uid = Resolved answer /\ q_data answer = Some (budgets s).
Proof.
  unfold fetchState_from, apiService.fetchState.
  destruct (db_getUser db) as [[authUser|]|]; [| | discriminate].
  2:{ intros [= <-]. left. reflexivity. }
  destruct (db_selectExpenses db (user_id authUser)) as [ea|].
  2:{ intros [= <-]. left. reflexivity. }
  destruct (q_error ea).
  { intros [= <-]. left. reflexivity. }
  destruct (db_selectBudgets db (user_id authUser)) as [ba|] eqn:Hb.
  2:{ intros [= <-]. left. reflexivity. }
  destruct (db_selectChat db (user_id authUser)) as [ca|].
  2:{ intros [= <-]. left. reflexivity. }
  destruct (q_data ba) as [[|b rest]|] eqn:Hd; intros [= <-]; simpl.
  - left. reflexivity.
  - right. exists (user_id authUser), ba. split; [exact Hb|].
    rewrite Hd. f_equal. symmetry. apply (budget_rows_copy (b :: rest)).
  - left. reflexivity.
Qed.

(** When the budget rows the database answers with have pairwise distinct
    categories under case-insensitive comparison, so do the budgets of
    every state that [fetchState] resolves with. *)
Lemma fetchState_keeps_categories_unique :
  forall (db : Database) (s : AppState),
    budget_rows_unique db ->
    fetchState_from db = Resolved s ->
    unique_categories (budgets s).
Proof.
  intros db s Hrows Hs.
  destruct (fetchState_budgets_source db s Hs) as [Hdef | (uid & answer & Hsel & Hdata)].
  - rewrite Hdef. apply default_budgets_unique.
  - exact (Hrows _ _ _ Hsel Hdata).
Qed.

(** ** The budget invariant along a session *)

Lemma sendMessage_budgets (w : Collaborators) (state prev : AppState)
    (textOverride : option string) (inputValue : string) :
  budgets (execState (sendMessage w state textOverride inputValue) prev) = budgets prev.
Proof.
  unfold sendMessage, ChatInterface.handleSend, execState.
  destruct (truthy (trim (ChatInterface.textToSend textOverride inputValue)));
    [|reflexivity].
  simpl negb. cbv iota. rewrite runState_bind.
  destruct (parseExpenseMessage (gemini w (ChatInterface.textToSend textOverride inputValue)))
    as [parsed|]; [|reflexivity].
  destruct (parsed_amount parsed) as [amt|]; [|reflexivity].
  rewrite runState_bind. unfold App.handleAddExpense.
  destruct (saveExpense w _ _) as [[saved|]|]; reflexivity.
Qed.

Lemma handleInputChange_unique (category value : string) (s : AppState) :
  unique_categories (budgets s) ->
  unique_categories
    (budgets (execState (Settings.handleInputChange App.handleUpdateBudget category value) s)).
Proof.
  intros Hs. unfold Settings.handleInputChange.
  destruct (parseInt10 value) as [n|].
  - apply (upsert_unique category n _ Hs).
  - destruct (String.eqb value ""); [apply (upsert_unique category 0 _ Hs) | exact Hs].
Qed.

Lemma handleAddCategory_unique (form : CategoryForm) (s : AppState) :
  unique_categories (budgets s) ->
  unique_categories
    (budgets (execState (Settings.handleAddCategory App.handleUpdateBudget form) s)).
Proof.
  intros Hs. unfold Settings.handleAddCategory.
  destruct (truthy (trim (newCategoryName form))); simpl negb; cbv iota; [|exact Hs].
  apply (upsert_unique (trim (newCategoryName form))
           (or_zero (parseInt10 (newCategoryLimit form))) _ Hs).
Qed.

Lemma loadAppData_unique (db : Database) (s : AppState) :
  budget_rows_unique db -> unique_categories (budgets s) ->
  unique_categories (budgets (execState (AppSession.loadAppData (fetchState_from db)) s)).
Proof.
  intros Hdb Hs. unfold AppSession.loadAppData.
  destruct (fetchState_from db) as [loaded|] eqn:Hload; [|exact Hs].
  exact (fetchState_keeps_categories_unique db loaded Hdb Hload).
Qed.

Lemma handle_unique (ev : Event) (s : AppState) :
  reads_unique_rows ev -> unique_categories (budgets s) ->
  unique_categories (budgets (execState (handle ev) s)).
Proof.
  intros Hev Hs. destruct ev as [w t i | c v | form | c | confirmed cleared now
                                 | session recovering db | db]; cbn [handle].
  - change (unique_categories (budgets (execState (sendMessage w s t i) s))).
    rewrite sendMessage_budgets. exact Hs.
  - apply handleInputChange_unique. exact Hs.
  - unfold execState. rewrite runState_bind.
    apply (handleAddCategory_unique form s Hs).
  - apply (delete_unique c _ Hs).
  - destruct confirmed; [apply default_budgets_unique | exact Hs].
  - unfold AppSession.onAuthStateChange.
    destruct session as [u|]; [|apply default_budgets_unique].
    destruct recovering; simpl negb; cbv iota; [exact Hs|].
    apply loadAppData_unique; assumption.
  - apply loadAppData_unique; assumption.
Qed.

Lemma run_cons (ev : Event) (rest : list Event) (s : AppState) :
  execState (run (ev :: rest)) s = execState (run rest) (execState (handle ev) s).
Proof.
  unfold execState. cbn [run]. rewrite runState_bind. reflexivity.
Qed.

(** X7.  The budget categories stay pairwise distinct under
    case-insensitive comparison along a whole session: from a state with
    that property, any sequence of sends, limit edits, category
    additions, budget deletions, wipes, reloads and auth changes ends in
    a state with that property, provided the budget rows read from the
    database on the way have it. *)
Theorem session_keeps_categories_unique :
  forall (events : list Event) (s : AppState),
    unique_categories (budgets s) ->
    Forall reads_unique_rows events ->
    unique_categories (budgets (execState (run events) s)).
Proof.
  induction events as [|ev rest IH]; intros s Hs Hevents.
  - exact Hs.
  - inversion Hevents as [|ev' rest' Hev Hrest]; subst.
    rewrite run_cons. apply IH; [|exact Hrest].
    apply handle_unique; assumption.
Qed.

(** X7 on the visit of the scenario, from the state the app starts in. *)
Lemma session_keeps_categories_unique_witness :
  unique_categories (budgets (execState (run Scenario.visit) AppSession.initialState)).
Proof.
  apply (session_keeps_categories_unique Scenario.visit AppSession.initialState).
  - distinct_names.
  - assert (Hdb : budget_rows_unique Scenario.database).
    { intros uid answer rows Hsel Hdata. simpl in Hsel.
      injection Hsel as <-. simpl in Hdata. injection Hdata as <-. distinct_names. }
    repeat constructor; exact Hdb.
Defined.

Example scenario_visit_budgets :
  budgets (execState (run [ Reload Scenario.database;
                            AddCategory (mkCategoryForm " gym " "900");
                            AddCategory (mkCategoryForm "Books" "");
                            InputChange "Food" "12000" ])
                     AppSession.initialState)
  = [mkBudget "Food" 12000; mkBudget "Gym" 900; mkBudget "Books" 0].
Proof. reflexivity. Qed.

(** ** Saving an expense *)

Section SaveExpense.
Variable getUser : Awaited (option User).
Variable Date_parse : string -> option JSDate.
Variable toISOString : JSDate -> string.
Variable insert : InsertData -> Awaited (QueryResult ExpenseRow).
Variables (now : JSDate) (state prev : AppState).
Variables (expenseData : ExpenseData) (specificDate : string).

Let add : App.Store AddResult :=
  App.handleAddExpense (apiService.saveExpense getUser Date_parse toISOString insert)
    now state expenseData specificDate.

Let request (authUser : User) (created : option string) : InsertData :=
  mkInsertData (user_id authUser) (data_amount expenseData) (data_category expenseData)
    (data_description expenseData) created.

(** X8.  An add either stores nothing and returns a non-empty error, or
    a user is signed in, the date (when one is given) is a date, and the
    insert answered without error with at least one row; the expense
    appended to the stored list and returned is then built from the first
    returned row, not from the request. *)
Theorem stored_expense_is_the_returned_row :
  (snd (runState add prev) = prev
   /\ result_expense (fst (runState add prev)) = None
   /\ exists err, result_error (fst (runState add prev)) = Some err /\ truthy err = true)
  \/ (exists authUser created row rest,
        getUser = Resolved (Some authUser)
        /\ ((truthy specificDate = false /\ created = None)
            \/ (exists d, truthy specificDate = true /\ Date_parse specificDate = Some d
                          /\ created = Some (toISOString d)))
        /\ insert (request authUser created) = Resolved (mkQuery (Some (row :: rest)) false)
        /\ snd (runState add prev)
           = mkAppState (expenses prev ++ [apiService.expense_of_row row])
                        (budgets prev) (chatHistory prev)
        /\ result_expense (fst (runState add prev)) = Some (apiService.expense_of_row row)).
Proof.
  unfold add, request, App.handleAddExpense, apiService.saveExpense.
  destruct getUser as [[authUser|]|];
    [| left; simpl; repeat split; eexists; split; reflexivity
     | left; simpl; repeat split; eexists; split; reflexivity ].
  destruct (truthy specificDate) eqn:Htruthy.
  - destruct (Date_parse specificDate) as [d|] eqn:Hparse;
      [| left; simpl; repeat split; eexists; split; reflexivity ].
    destruct (insert _) as [[[[|row rest]|] []]|] eqn:Hins;
      try (left; simpl; repeat split; eexists; split; reflexivity).
    right. exists authUser, (Some (toISOString d)), row, rest.
    repeat split; auto. right. exists d. auto.
  - destruct (insert _) as [[[[|row rest]|] []]|] eqn:Hins;
      try (left; simpl; repeat split; eexists; split; reflexivity).
    right. exists authUser, None, row, rest.
    repeat split; auto.
Qed.

(** X9.  How a failed save is reported, the store being left as it was.
    With nobody signed in, or when the insert answers with an error or
    with no row, the error is "I couldn't save that expense. Please check
    your connection.".  When a date is given that is no date, the error
    is "Something went wrong while adding the expense.", whatever the
    insert would have answered. *)
Theorem failed_save_messages :
  (getUser = Resolved None ->
   runState add prev
   = (mkAddResult None None
        (Some "I couldn't save that expense. Please check your connection."), prev))
  /\ (forall authUser created answer,
         getUser = Resolved (Some authUser) ->
         (truthy specificDate = false /\ created = None
          \/ exists d, truthy specificDate = true /\ Date_parse specificDate = Some d
                       /\ created = Some (toISOString d)) ->
         insert (request authUser created) = Resolved answer ->
         (q_error answer = true \/ q_data answer = None \/ q_data answer = Some []) ->
         runState add prev
         = (mkAddResult None None
              (Some "I couldn't save that expense. Please check your connection."), prev))
  /\ (forall authUser,
         getUser = Resolved (Some authUser) ->
         truthy specificDate = true ->
         Date_parse specificDate = None ->
         runState add prev
         = (mkAddResult None None
              (Some "Something went wrong while adding the expense."), prev)).
Proof.
  unfold add, request, App.handleAddExpense, apiService.saveExpense.
  split; [|split].
  - intros ->. reflexivity.
  - intros authUser created answer -> Hdate Hins Hbad.
    destruct Hdate as [[-> ->] | (d & -> & -> & ->)]; rewrite Hins;
      destruct answer as [[[|row rest]|] []]; simpl in Hbad;
      try reflexivity; destruct Hbad as [H | [H | H]]; discriminate.
  - intros authUser -> -> ->. reflexivity.
Qed.
End SaveExpense.

(** ** Reading a limit back *)

Definition no_leading_digit (s : string) : Prop :=
  match s with
  | String c _ => digit_value c = None
  | EmptyString => True
  end.

(** The number a string of decimal digits stands for, after [acc]. *)
Fixpoint uint_value (d : Decimal.uint) (acc : Z) : Z :=
  match d with
  | Decimal.Nil => acc
  | Decimal.D0 l => uint_value l (acc * 10 + 0)
  | Decimal.D1 l => uint_value l (acc * 10 + 1)
  | Decimal.D2 l => uint_value l (acc * 10 + 2)
  | Decimal.D3 l => uint_value l (acc * 10 + 3)
  | Decimal.D4 l => uint_value l (acc * 10 + 4)
  | Decimal.D5 l => uint_value l (acc * 10 + 5)
  | Decimal.D6 l => uint_value l (acc * 10 + 6)
  | Decimal.D7 l => uint_value l (acc * 10 + 7)
  | Decimal.D8 l => uint_value l (acc * 10 + 8)
  | Decimal.D9 l => uint_value l (acc * 10 + 9)
  end.

Lemma parse_digits_stop (rest : string) (acc : Z) :
  no_leading_digit rest -> parse_digits rest acc = acc.
Proof. destruct rest as [|c rest]; simpl; [reflexivity|]. intros ->. reflexivity. Qed.

Lemma parse_digits_uint (d : Decimal.uint) (rest : string) (acc : Z) :
  no_leading_digit rest ->
  parse_digits (NilEmpty.string_of_uint d ++ rest) acc = uint_value d acc.
Proof.
  intros Hrest. revert acc.
  induction d; intros acc; simpl; try apply IHd.
  apply parse_digits_stop. exact Hrest.
Qed.

Lemma uint_value_pos (d : Decimal.uint) (acc : positive) :
  uint_value d (Z.pos acc) = Z.pos (Pos.of_uint_acc d acc).
Proof.
  revert acc. induction d; intros acc; cbn [uint_value Pos.of_uint_acc]; try reflexivity;
    match goal with
    | |- uint_value _ ?a = Z.pos (Pos.of_uint_acc _ ?p) =>
        replace a with (Z.pos p) by lia; apply IHd
    end.
Qed.

Lemma uint_value_zero (d : Decimal.uint) :
  uint_value d 0 = Z.of_N (Pos.of_uint d).
Proof.
  induction d; cbn [uint_value Pos.of_uint Z.of_N]; try reflexivity; try exact IHd;
    match goal with
    | |- uint_value _ ?a = Z.pos (Pos.of_uint_acc _ ?p) =>
        change a with (Z.pos p); apply uint_value_pos
    end.
Qed.

Lemma uint_string_head (d : Decimal.uint) :
  d <> Decimal.Nil ->
  exists c tail,
    NilEmpty.string_of_uint d = String c tail
    /\ is_space c = false /\ Ascii.eqb c "-" = false /\ Ascii.eqb c "+" = false
    /\ exists v, digit_value c = Some v.
Proof.
  destruct d; intros Hd; [congruence| ..];
    eexists; eexists; (split; [reflexivity|]);
    repeat split; eexists; reflexivity.
Qed.

Lemma parseInt10_digits (d : Decimal.uint) (rest : string) :
  d <> Decimal.Nil -> no_leading_digit rest ->
  parseInt10 (NilEmpty.string_of_uint d ++ rest) = Some (uint_value d 0)
  /\ parseInt10 (String "-" (NilEmpty.string_of_uint d ++ rest)) = Some (- uint_value d 0).
Proof.
  intros Hd Hrest.
  pose proof (parse_digits_uint d rest 0 Hrest) as Hval.
  destruct (uint_string_head d Hd) as (c & tail & Hs & Hsp & Hminus & Hplus & v & Hv).
  rewrite Hs in *. unfold parseInt10. simpl trimStart. rewrite Hsp.
  rewrite Hminus, Hplus. simpl. rewrite Hv.
  simpl in Hval. rewrite Hv in Hval. rewrite Hval.
  destruct (uint_value d 0); split; reflexivity.
Qed.

(** [parseInt] reads back what [toString] prints, and ignores what
    follows the digits. *)
Lemma parseInt10_toString (n : Z) (rest : string) :
  no_leading_digit rest -> parseInt10 (toString n ++ rest) = Some n.
Proof.
  intros Hrest. unfold toString.
  destruct n as [|p|p]; simpl Z.to_int; unfold NilZero.string_of_int, NilZero.string_of_uint.
  - change (parseInt10 (NilEmpty.string_of_uint (Decimal.D0 Decimal.Nil) ++ rest) = Some 0).
    apply (parseInt10_digits (Decimal.D0 Decimal.Nil) rest); [discriminate | exact Hrest].
  - pose proof (DecimalPos.Unsigned.to_uint_nonnil p) as Hnil.
    destruct (Pos.to_uint p) eqn:Hp; try congruence;
      rewrite <- Hp in *;
      rewrite (proj1 (parseInt10_digits _ rest Hnil Hrest)), uint_value_zero,
        DecimalPos.Unsigned.of_to; reflexivity.
  - pose proof (DecimalPos.Unsigned.to_uint_nonnil p) as Hnil.
    destruct (Pos.to_uint p) eqn:Hp; try congruence;
      rewrite <- Hp in *;
      change (String "-" (NilEmpty.string_of_uint (Pos.to_uint p)) ++ rest)%string
        with (String "-" (NilEmpty.string_of_uint (Pos.to_uint p) ++ rest)%string);
      rewrite (proj2 (parseInt10_digits _ rest Hnil Hrest)), uint_value_zero,
        DecimalPos.Unsigned.of_to; reflexivity.
Qed.

Lemma append_empty (s : string) : (s ++ "")%string = s.
Proof. induction s as [|c s IH]; simpl; [reflexivity|]. now rewrite IH. Qed.

Lemma upsert_same (b : Budget) (l : list Budget) :
  unique_categories l -> In b l ->
  App.newBudgets_upsert (budget_category b) (limit b) l = l.
Proof.
  intros Huniq Hin.
  destruct (in_split b l Hin) as (l1 & l2 & ->).
  pose proof (unique_split_others l1 l2 b Huniq) as Hothers.
  rewrite upsert_present.
  - destruct b. reflexivity.
  - intros x Hx. apply Hothers, in_or_app. now left.
  - reflexivity.
Qed.

Lemma handleUpdateBudget_run (category : string) (n : Z) (s : AppState) :
  execState (App.handleUpdateBudget category n) s
  = mkAppState (expenses s) (App.newBudgets_upsert category n (budgets s)) (chatHistory s).
Proof. reflexivity. Qed.

(** For limits that the field prints in full.  In a state whose budget categories are pairwise distinct under
    case-insensitive comparison, typing back into the limit field of a
    budget the text that the field shows (the empty text for a limit of
    zero, the decimal digits otherwise) leaves the whole state
    unchanged. *)
Theorem limit_field_round_trip :
  forall (s : AppState) (b : Budget),
    unique_categories (budgets s) ->
    In b (budgets s) ->
    execState (Settings.handleInputChange App.handleUpdateBudget
                 (budget_category b) (Settings.limitInputValue b)) s
    = s.
Proof.
  intros s b Huniq Hin.
  assert (Hsame : execState (App.handleUpdateBudget (budget_category b) (limit b)) s = s).
  { rewrite handleUpdateBudget_run, upsert_same by assumption. destruct s. reflexivity. }
  unfold Settings.handleInputChange, Settings.limitInputValue.
  destruct (Z.eqb_spec (limit b) 0) as [Hzero | Hnz].
  - simpl. rewrite <- Hzero. exact Hsame.
  - rewrite <- (append_empty (toString (limit b))).
    rewrite parseInt10_toString by exact I. exact Hsame.
Qed.

(** On the default budgets and the entry for Bills. *)
Lemma limit_field_round_trip_witness :
  execState (Settings.handleInputChange App.handleUpdateBudget "Bills" "10000")
            AppSession.initialState
  = AppSession.initialState.
Proof.
  apply (limit_field_round_trip AppSession.initialState (mkBudget "Bills" 10000)).
  - distinct_names.
  - simpl. tauto.
Defined.

(** For integers that a number holds exactly.  The limit a typed text sets is its leading integer: the text
    of an integer, negative ones included, followed by anything that does
    not start with a digit (a fraction, an exponent, letters) sets that
    integer as the limit of the category. *)
Theorem typed_limit_is_leading_integer :
  forall (category : string) (n : Z) (rest : string) (s : AppState),
    no_leading_digit rest ->
    execState (Settings.handleInputChange App.handleUpdateBudget category
                 (toString n ++ rest)) s
    = mkAppState (expenses s) (App.newBudgets_upsert category n (budgets s))
                 (chatHistory s).
Proof.
  intros category n rest s Hrest. unfold Settings.handleInputChange.
  rewrite parseInt10_toString by exact Hrest. reflexivity.
Qed.

(** On the text 1e3, which sets the limit 1, not 1000. *)
Lemma typed_limit_is_leading_integer_witness :
  execState (Settings.handleInputChange App.handleUpdateBudget "Food" "1e3")
            (mkAppState [] [mkBudget "Food" 15000] [])
  = mkAppState [] [mkBudget "Food" 1] [].
Proof.
  apply (typed_limit_is_leading_integer "Food" 1 "e3" (mkAppState [] [mkBudget "Food" 15000] [])).
  reflexivity.
Defined.

Example typed_limit_examples :
  parseInt10 "12.7" = Some 12 /\ parseInt10 "  -5" = Some (-5)
  /\ parseInt10 "abc" = None /\ parseInt10 "" = None /\ parseInt10 "+" = None
  /\ execState (Settings.handleInputChange App.handleUpdateBudget "Food" "abc")
               AppSession.initialState
     = AppSession.initialState.
Proof. repeat split; reflexivity. Qed.

(** For names and white space in the ASCII range.  Adding a category from the form.  A name that is blank after
    trimming changes nothing and keeps the form.  Otherwise the form is
    cleared, expenses and chat history are kept, and: when some budget
    already has the trimmed name up to letter case, no entry is added and
    the stored names stay as they are (the first such budget gets the
    limit); when none has, exactly one entry is appended, with the
    trimmed name and the leading integer of the limit text, zero when
    there is none. *)
Theorem handleAddCategory_adds_at_most_one :
  forall (form : CategoryForm) (s : AppState),
    let category := trim (newCategoryName form) in
    let limit := or_zero (parseInt10 (newCategoryLimit form)) in
    let run := runState (Settings.handleAddCategory App.handleUpdateBudget form) s in
    (truthy category = false -> run = (form, s))
    /\ (truthy category = true ->
        fst run = mkCategoryForm "" ""
        /\ expenses (snd run) = expenses s
        /\ chatHistory (snd run) = chatHistory s
        /\ ((exists b, In b (budgets s) /\ same_category_ci (budget_category b) category) ->
            map budget_category (budgets (snd run)) = map budget_category (budgets s))
        /\ ((forall b, In b (budgets s) -> ~ same_category_ci (budget_category b) category) ->
            budgets (snd run) = budgets s ++ [mkBudget category limit])).
Proof.
  intros form s category limit run. subst run.
  unfold Settings.handleAddCategory. fold category limit.
  destruct (truthy category) eqn:Hname; simpl negb; cbv iota.
  - split; [discriminate|]. intros _.
    rewrite runState_bind. simpl.
    repeat split.
    + intros (b0 & Hin & Hsame).
      destruct (budgets_first_match category (budgets s))
        as [Hn | (l1 & b & l2 & Heq & Hl1 & Hb)].
      * exfalso. exact (Hn b0 Hin Hsame).
      * rewrite Heq, upsert_present by assumption.
        rewrite !map_app. reflexivity.
    + intros Hnone. apply upsert_absent. exact Hnone.
  - split; [reflexivity | discriminate].
Qed.

(** ** The CSV export *)

Lemma csv_read_body_doubled (field rest : string) :
  no_leading_quote rest ->
  csv_read_body (double_quotes field ++ String (ascii_of_nat 34) rest) = Some (field, rest).
Proof.
  intros Hrest. induction field as [|c field IH].
  - simpl. destruct rest as [|c' rest']; [reflexivity|].
    simpl in Hrest. apply Ascii.eqb_neq in Hrest. rewrite Hrest. reflexivity.
  - cbn [double_quotes]. destruct (Ascii.eqb c (ascii_of_nat 34)) eqn:Hc;
      cbn [append csv_read_body]; rewrite Hc, IH; reflexivity.
Qed.

Lemma append_assoc (a b c : string) : ((a ++ b) ++ c)%string = (a ++ (b ++ c))%string.
Proof. induction a as [|x a IH]; simpl; [reflexivity|]. now rewrite IH. Qed.

(** X13.  A field that the export wraps in quotes reads back unchanged,
    whatever it contains (commas, quotes, line breaks): a CSV reader that
    takes a doubled quote for a quote and a single one for the end of the
    field recovers the field and stops right after it, provided the text
    that follows does not start with a quote. *)
Theorem csv_quoted_field_reads_back :
  forall (field rest : string),
    no_leading_quote rest ->
    csv_read_quoted (Settings.csvQuoted field ++ rest) = Some (field, rest).
Proof.
  intros field rest Hrest. unfold Settings.csvQuoted, csv_read_quoted.
  cbn [append]. rewrite Ascii.eqb_refl, append_assoc. cbn [append].
  apply csv_read_body_doubled. exact Hrest.
Qed.

(** X13 on a description with a comma and quotes, followed by a line break. *)
Lemma csv_quoted_field_reads_back_witness :
  csv_read_quoted
    (Settings.csvQuoted ("tea, " ++ String (ascii_of_nat 34) ("masala" ++ String (ascii_of_nat 34) ""))
     ++ String (ascii_of_nat 10) "next")
  = Some (("tea, " ++ String (ascii_of_nat 34) ("masala" ++ String (ascii_of_nat 34) ""))%string,
          String (ascii_of_nat 10) "next").
Proof.
  apply (csv_quoted_field_reads_back
           ("tea, " ++ String (ascii_of_nat 34) ("masala" ++ String (ascii_of_nat 34) ""))
           (String (ascii_of_nat 10) "next")).
  simpl. discriminate.
Defined.

Example scenario_export :
  Settings.handleExportCSV (fun _ => "2/11/2026") "Alice"
    [ mkExpense "1" 7000 "Food" "groceries" Scenario.today ]
  = Some ("User,Date,Category,Amount (INR),Description" ++ String (ascii_of_nat 10)
          (String (ascii_of_nat 34) "Alice" ++ String (ascii_of_nat 34)
             ",2/11/2026,Food,7000," ++ String (ascii_of_nat 34) "groceries"
           ++ String (ascii_of_nat 34) ""))%string
  /\ Settings.handleExportCSV (fun _ => "2/11/2026") "Alice" [] = None.
Proof. split; reflexivity. Qed.

(** ** Message ids and the captured state *)

Lemma toString_injective (a b : Z) : toString a = toString b -> a = b.
Proof.
  intros H.
  pose proof (parseInt10_toString a "" I) as Ha.
  pose proof (parseInt10_toString b "" I) as Hb.
  rewrite H in Ha. rewrite Ha in Hb. now injection Hb.
Qed.

Lemma sendMessage_messages (w : Collaborators) (state prev : AppState)
    (textOverride : option string) (inputValue : string) :
  truthy (trim (ChatInterface.textToSend textOverride inputValue)) = true ->
  exists text meta,
    chatHistory (execState (sendMessage w state textOverride inputValue) prev)
    = chatHistory prev
      ++ [ mkChatMessage (toString (getTime (t_send w))) user
             (ChatInterface.textToSend textOverride inputValue) (t_send w) None;
           ChatInterface.reply (t_reply w) text meta ].
Proof.
  intros Htext. unfold sendMessage, ChatInterface.handleSend, execState.
  rewrite Htext. simpl negb. cbv iota. rewrite runState_bind.
  destruct (parseExpenseMessage (gemini w (ChatInterface.textToSend textOverride inputValue)))
    as [parsed|];
    [| eexists; eexists; simpl; rewrite <- app_assoc; reflexivity ].
  destruct (parsed_amount parsed) as [amt|];
    [| eexists; eexists; simpl; rewrite <- app_assoc; reflexivity ].
  rewrite runState_bind. unfold App.handleAddExpense.
  destruct (saveExpense w _ _) as [[saved|]|];
    eexists; eexists; simpl; rewrite <- app_assoc; reflexivity.
Qed.

(** X14.  When the clock does not run backwards between the two
    messages of a send, the user message and the assistant reply that a
    non-blank send appends carry different ids. *)
Theorem send_appends_distinct_ids :
  forall (w : Collaborators) (state prev : AppState)
         (textOverride : option string) (inputValue : string),
    truthy (trim (ChatInterface.textToSend textOverride inputValue)) = true ->
    getTime (t_send w) <= getTime (t_reply w) ->
    exists u r,
      chatHistory (execState (sendMessage w state textOverride inputValue) prev)
      = chatHistory prev ++ [u; r]
      /\ role u = user /\ role r = assistant /\ id u <> id r.
Proof.
  intros w state prev textOverride inputValue Htext Hclock.
  destruct (sendMessage_messages w state prev textOverride inputValue Htext)
    as (text & meta & Hchat).
  eexists. eexists. split; [exact Hchat|].
  repeat split. simpl. intros Hid. apply toString_injective in Hid. lia.
Qed.

(** X14 in the scenario, where both messages are built at the same instant. *)
Lemma send_appends_distinct_ids_witness :
  exists u r,
    chatHistory (execState (sendMessage (Scenario.world Rejected Scenario.saves)
                              Scenario.state0 None "hello there") Scenario.state0)
    = chatHistory Scenario.state0 ++ [u; r]
    /\ role u = user /\ role r = assistant /\ id u <> id r.
Proof.
  apply (send_appends_distinct_ids (Scenario.world Rejected Scenario.saves)
           Scenario.state0 Scenario.state0 None "hello there").
  - reflexivity.
  - simpl. lia.
Defined.

(** X15.  What [handleAddExpense] returns, the [budgetLeft] figure
    included, is computed from the state its closure captured and does
    not depend on what the store holds when it runs: an expense that
    reached the store after the capture is kept in the list but is not
    counted in the figure.  The store itself only gains the returned
    expense at the end of its list. *)
Theorem handleAddExpense_reads_captured_state :
  forall (saveExpense : ExpenseData -> string -> Awaited (option Expense)) (now : JSDate)
         (state : AppState) (expenseData : ExpenseData) (specificDate : string)
         (store1 store2 : AppState),
    let add := App.handleAddExpense saveExpense now state expenseData specificDate in
    fst (runState add store1) = fst (runState add store2)
    /\ budgets (snd (runState add store1)) = budgets store1
    /\ chatHistory (snd (runState add store1)) = chatHistory store1
    /\ (expenses (snd (runState add store1)) = expenses store1
        \/ exists saved,
             saveExpense expenseData specificDate = Resolved (Some saved)
             /\ expenses (snd (runState add store1)) = expenses store1 ++ [saved]).
Proof.
  intros saveExpense now state expenseData specificDate store1 store2 add.
  subst add. unfold App.handleAddExpense.
  destruct (saveExpense expenseData specificDate) as [[saved|]|]; simpl;
    repeat split; try (left; reflexivity).
  right. exists saved. split; reflexivity.
Qed.


(** ** A send through a handler that was captured earlier *)

(** C1.  The speech callback is registered once, when the chat tab
    mounts, and keeps the [handleSend] of that render, whose
    [handleAddExpense] holds the state of that render.  Take the scenario
    after a first spoken expense: the store holds 14000 of Food for the
    month, the captured state still 12000.  A second spoken expense of
    2000 on Food is appended to the store, and the reply reports
    [budgetLeft = 15000 - (12000 + 2000) = 1000], whereas the list as of
    immediately before the add gives [15000 - (14000 + 2000) = -1000].  A
    typed send, which runs the handler of the current render, reports
    that figure. *)
Lemma spoken_send_reports_stale_budgetLeft :
  let w := Scenario.world (Resolved (Some Scenario.lunch)) Scenario.saves in
  let saved := mkExpense "6" 2000 "Food" "lunch" Scenario.today in
  let spoken := execState (sendMessage w Scenario.state0 (Some "Spent 2000 on lunch") "")
                          Scenario.state1 in
  let typed := execState (sendMessage w Scenario.state1 None "Spent 2000 on lunch")
                         Scenario.state1 in
  expenses spoken = expenses Scenario.state1 ++ [saved]
  /\ map metadata (chatHistory spoken)
     = [None; Some (mkMetadata (Some saved) (Some 1000))]
  /\ categoryLimit (budgets Scenario.state1) "Food"
     - (priorSpendThisMonthInCategory Scenario.today "Food" (expenses Scenario.state1) + 2000)
     = -1000
  /\ map metadata (chatHistory typed)
     = [None; Some (mkMetadata (Some saved) (Some (-1000)))].
Proof. repeat split. Qed.
